(** * Tufte weather chart: the loader and the renderer of [scripts/visualize.py]

    A shallow embedding of [load_data], [create_tufte_visualization] and the
    [__main__] block, and the properties of the written specification that
    can be settled on it.

    Conventions of the embedding.
    - Numbers held in tables are real numbers ([R]); a missing cell (pandas'
      NaN) is [None].  Floating-point rounding is not modelled.
    - Python exceptions are values: a computation returns [Ok a] or
      [Raise e].  The pseudo-random generator of numpy is a state threaded
      through the computation, and it survives a raised exception, as the
      global generator of numpy does.
    - Messages printed on the standard output are not modelled.
    - The three data files are given by what [pd.read_csv] makes of them:
      absent, unreadable, or a list of rows whose first field may or may not
      be a calendar date. *)

From Stdlib Require Import ZArith List String Bool Reals Lia Lra.
Import ListNotations.
Open Scope Z_scope.

(** ** Exceptions and computations *)

Module Py.

(** The subclasses of Python's [Exception] that the script can meet. *)
Inductive Exception : Type :=
| FileNotFoundError
| ParserError
| DateParseError
| OutOfBoundsDatetime
| ValueError
| KeyError (label : string)
| BackendError.

(** [SystemExit] derives from [BaseException] only: a clause
    [except Exception] lets it through. *)
Inductive BaseException : Type :=
| Exc (e : Exception)
| SystemExit (code : Z).

Inductive result (E A : Type) : Type :=
| Ok (a : A)
| Raise (e : E).

Arguments Ok {E A} a.
Arguments Raise {E A} e.

Definition rbind {E A B} (r : result E A) (k : A -> result E B) : result E B :=
  match r with
  | Ok a => k a
  | Raise e => Raise e
  end.

Definition is_ok {E A} (r : result E A) : bool :=
  match r with Ok _ => true | Raise _ => false end.

End Py.
Export Py.

(** ** numpy's global random generator

    The generator is a position in three fixed streams of raw draws.  The
    distribution of the draws is outside the embedding; what each numpy
    function guarantees about the range of its result is kept:
    [randint low high] reduces a raw integer into [low .. high-1]. *)

Record RandomState : Type := mkRandomState {
  position : nat;
  raw_integers : nat -> Z;
  standard_normal : nat -> R;
  standard_exponential : nat -> R
}.

Definition advance (n : nat) (st : RandomState) : RandomState :=
  mkRandomState (position st + n) (raw_integers st)
                (standard_normal st) (standard_exponential st).

(** A computation of the script: it reads and advances the generator and
    either returns or raises. *)
Definition M (A : Type) : Type := RandomState -> result Exception A * RandomState.

Definition ret {A} (a : A) : M A := fun st => (Ok a, st).

Definition raise {A} (e : Exception) : M A := fun st => (Raise e, st).

Definition bind {A B} (c : M A) (k : A -> M B) : M B :=
  fun st =>
    match c st with
    | (Ok a, st') => k a st'
    | (Raise e, st') => (Raise e, st')
    end.

Definition lift {A} (r : result Exception A) : M A := fun st => (r, st).

(** [try: body  except Exception as e: handler e] *)
Definition try_except {A} (body : M A) (handler : Exception -> M A) : M A :=
  fun st =>
    match body st with
    | (Ok a, st') => (Ok a, st')
    | (Raise e, st') => handler e st'
    end.

Declare Scope py_scope.
Delimit Scope py_scope with py.
Notation "x <- c ;; k" := (bind c (fun x => k))
  (at level 61, c at next level, right associativity) : py_scope.
Notation "c ;;; k" := (bind c (fun _ => k))
  (at level 61, right associativity) : py_scope.
Open Scope py_scope.

(** [np.random.randint(low, high, size=n)] *)
Definition randint (low high : Z) (n : nat) : M (list Z) :=
  fun st =>
    (Ok (map (fun i => low + raw_integers st (position st + i) mod (high - low))
             (seq 0 n)),
     advance n st).

(** [np.random.normal(loc, scale)] *)
Definition normal (loc scale : R) : M R :=
  fun st => (Ok (loc + scale * standard_normal st (position st))%R, advance 1 st).

(** [np.random.normal(loc, scale, size=n)] *)
Definition normal_n (loc scale : R) (n : nat) : M (list R) :=
  fun st =>
    (Ok (map (fun i => (loc + scale * standard_normal st (position st + i))%R)
             (seq 0 n)),
     advance n st).

(** [np.random.exponential(scale, size=n)] *)
Definition exponential_n (scale : R) (n : nat) : M (list R) :=
  fun st =>
    (Ok (map (fun i => (scale * standard_exponential st (position st + i))%R)
             (seq 0 n)),
     advance n st).

(** ** Calendar dates *)

Record date : Type := mkdate { year : Z; month : Z; day : Z }.

Definition date_eqb (a b : date) : bool :=
  (year a =? year b) && (month a =? month b) && (day a =? day b).

Definition is_leap (y : Z) : bool :=
  (y mod 4 =? 0) && (negb (y mod 100 =? 0) || (y mod 400 =? 0)).

Definition days_in_month (y m : Z) : Z :=
  match m with
  | 1 => 31
  | 2 => if is_leap y then 29 else 28
  | 3 => 31
  | 4 => 30
  | 5 => 31
  | 6 => 30
  | 7 => 31
  | 8 => 31
  | 9 => 30
  | 10 => 31
  | 11 => 30
  | 12 => 31
  | _ => 0
  end.

Definition days_in_year (y : Z) : Z := if is_leap y then 366 else 365.

(** A triple that names a day of the calendar. *)
Definition is_calendar_date (d : date) : bool :=
  (1 <=? month d) && (month d <=? 12) &&
  (1 <=? day d) && (day d <=? days_in_month (year d) (month d)).

Definition date_ltb (a b : date) : bool :=
  (year a <? year b) ||
  ((year a =? year b) &&
   ((month a <? month b) || ((month a =? month b) && (day a <? day b)))).

Definition date_leb (a b : date) : bool := date_ltb a b || date_eqb a b.

(** pandas keeps timestamps as signed 64-bit nanoseconds since 1970: the
    first and the last midnight it can hold are 1677-09-22 and 2262-04-11. *)
Definition Timestamp_min : date := mkdate 1677 9 22.
Definition Timestamp_max : date := mkdate 2262 4 11.

Definition in_bounds (d : date) : bool :=
  date_leb Timestamp_min d && date_leb d Timestamp_max.

(** [pd.Timestamp(f"{y}-{m}-{d}")], at nanosecond resolution.  A year of
    five digits and more is no year of a Python [datetime]: the parser
    refuses the text.  A date of four digits outside the nanosecond bounds
    is out of bounds.

    The text of a year below 1000 has fewer than four digits, and pandas
    leaves it to [dateutil], which completes a short year to a year close
    to the current date.  The embedding has no clock: it takes the digits
    for the year, which is then out of bounds.  The outcome of
    [Timestamp], [date_range_D] and [date_range_MS] is the one of pandas
    for the years 1678 to 2261 and for the years from 10000 on; the
    statements of this file about the dates of a year are made for these
    years only. *)
Definition Timestamp (y m d : Z) : result Exception date :=
  let t := mkdate y m d in
  if negb (is_calendar_date t) || (9999 <? y) then Raise DateParseError
  else if negb (in_bounds t) then Raise OutOfBoundsDatetime
  else Ok t.

(** The years all of whose days pandas can hold at nanosecond resolution. *)
Definition year_supported (y : Z) : bool := (1678 <=? y) && (y <=? 2261).

Definition days_before_month (y m : Z) : Z :=
  match m with
  | 1 => 0
  | 2 => 31
  | 3 => 59
  | 4 => 90
  | 5 => 120
  | 6 => 151
  | 7 => 181
  | 8 => 212
  | 9 => 243
  | 10 => 273
  | 11 => 304
  | 12 => 334
  | _ => 0
  end + (if (2 <? m) && is_leap y then 1 else 0).

(** [date.dayofyear] *)
Definition dayofyear (d : date) : Z := days_before_month (year d) (month d) + day d.

Definition days_before_year (y : Z) : Z :=
  let p := y - 1 in 365 * p + p / 4 - p / 100 + p / 400.

(** The proleptic Gregorian ordinal, day 1 being 0001-01-01. *)
Definition toordinal (d : date) : Z := days_before_year (year d) + dayofyear d.

(** [mdates.date2num] of a midnight: whole days since 1970-01-01. *)
Definition date2num (d : date) : Z := toordinal d - 719163.

Definition zrange (lo : Z) (n : nat) : list Z :=
  map (fun i => lo + Z.of_nat i) (seq 0 n).

Definition month_days (y m : Z) : list date :=
  map (mkdate y m) (zrange 1 (Z.to_nat (days_in_month y m))).

(** The days from January 1st to December 31st of [y], in order. *)
Definition year_days (y : Z) : list date :=
  flat_map (month_days y) (zrange 1 12).

(** [pd.date_range(start=f"{y}-01-01", end=f"{y}-12-31", freq='D')] *)
Definition date_range_D (y : Z) : result Exception (list date) :=
  rbind (Timestamp y 1 1) (fun _ =>
  rbind (Timestamp y 12 31) (fun _ =>
  Ok (year_days y))).

(** [pd.date_range(start=f"{y}-01-01", end=f"{y}-12-31", freq='MS')]: the
    first day of each month. *)
Definition date_range_MS (y : Z) : result Exception (list date) :=
  rbind (Timestamp y 1 1) (fun _ =>
  rbind (Timestamp y 12 31) (fun _ =>
  Ok (map (fun m => mkdate y m 1) (zrange 1 12)))).

(** ** Tables *)

(** A cell of a numeric table; [None] is NaN. *)
Definition cell : Type := option R.

(** A [pd.DataFrame]: row labels, column labels and the cells row by row. *)
Record DataFrame : Type := mkDataFrame {
  index : list date;
  columns : list string;
  values : list (list cell)
}.

(** A [pd.Series] keyed by month number, as [groupby(index.month)] gives. *)
Definition Series : Type := list (Z * cell).

Fixpoint insert_sorted {A} (ltb : A -> A -> bool) (x : A) (l : list A) : list A :=
  match l with
  | [] => [x]
  | y :: l' =>
      if ltb x y then x :: l
      else if ltb y x then y :: insert_sorted ltb x l'
      else l
  end.

(** The distinct elements of [l] in increasing order. *)
Definition sorted_unique {A} (ltb : A -> A -> bool) (l : list A) : list A :=
  fold_right (insert_sorted ltb) [] l.

Fixpoint has_duplicates {A} (eqb : A -> A -> bool) (l : list A) : bool :=
  match l with
  | [] => false
  | x :: l' => existsb (eqb x) l' || has_duplicates eqb l'
  end.

Fixpoint position_of (c : string) (cols : list string) : option nat :=
  match cols with
  | [] => None
  | c' :: cols' =>
      if String.eqb c c' then Some O
      else option_map S (position_of c cols')
  end.

(** [df[c]]: the cells of column [c], or [KeyError]. *)
Definition getitem (df : DataFrame) (c : string) : result Exception (list cell) :=
  match position_of c (columns df) with
  | Some i => Ok (map (fun row => nth i row None) (values df))
  | None => Raise (KeyError c)
  end.

(** [pd.DataFrame(index=idx, columns=cols)]: every cell is NaN. *)
Definition empty_frame (idx : list date) (cols : list string) : DataFrame :=
  mkDataFrame idx cols (map (fun _ => map (fun _ => None) cols) idx).

Fixpoint replace_nth {A} (i : nat) (x : A) (l : list A) : list A :=
  match l, i with
  | [], _ => []
  | _ :: l', O => x :: l'
  | y :: l', S i' => y :: replace_nth i' x l'
  end.

(** [df[c] = vals] for a column of labels that [df] already has; a list of
    another length than the index raises [ValueError]. *)
Definition setitem (df : DataFrame) (c : string) (vals : list cell)
  : result Exception DataFrame :=
  if negb (Nat.eqb (List.length vals) (List.length (index df))) then Raise ValueError
  else
    match position_of c (columns df) with
    | Some i =>
        Ok (mkDataFrame (index df) (columns df)
              (map (fun rv => replace_nth i (snd rv) (fst rv))
                   (combine (values df) vals)))
    | None =>
        Ok (mkDataFrame (index df) (columns df ++ [c])
              (map (fun rv => fst rv ++ [snd rv]) (combine (values df) vals)))
    end.

(** [df.loc[d, c] = v] for labels that [df] already has. *)
Definition set_loc (df : DataFrame) (d : date) (c : string) (v : cell) : DataFrame :=
  match position_of c (columns df) with
  | Some i =>
      mkDataFrame (index df) (columns df)
        (map (fun dr => if date_eqb (fst dr) d then replace_nth i v (snd dr) else snd dr)
             (combine (index df) (values df)))
  | None => df
  end.

(** *** Aggregation by month *)

(** The non-NaN numbers among some cells. *)
Fixpoint numbers (l : list cell) : list R :=
  match l with
  | [] => []
  | Some v :: l' => v :: numbers l'
  | None :: l' => numbers l'
  end.

Definition Rsum (l : list R) : R := fold_right Rplus 0%R l.

(** [mean()] skips NaN and is NaN on an empty group. *)
Definition nanmean (l : list cell) : cell :=
  match numbers l with
  | [] => None
  | vs => Some (Rsum vs / INR (List.length vs))%R
  end.

(** [sum()] skips NaN. *)
Definition nansum (l : list cell) : cell := Some (Rsum (numbers l)).

(** The cells of [col] on the rows whose date falls in month [m]. *)
Definition month_cells (idx : list date) (col : list cell) (m : Z) : list cell :=
  map snd (filter (fun dc => month (fst dc) =? m) (combine idx col)).

(** [df.groupby(df.index.month)[c].agg()]: one entry per month that occurs in
    the index, in increasing order of month. *)
Definition groupby_month (agg : list cell -> cell) (df : DataFrame) (c : string)
  : result Exception Series :=
  rbind (getitem df c) (fun col =>
  Ok (map (fun m => (m, agg (month_cells (index df) col m)))
          (sorted_unique Z.ltb (map month (index df))))).

(** [s * k] *)
Definition series_mul (s : Series) (k : R) : Series :=
  map (fun mv => (fst mv, option_map (fun v => (v * k)%R) (snd mv))) s.

Fixpoint series_find (s : Series) (m : Z) : option cell :=
  match s with
  | [] => None
  | (m', v) :: s' => if m' =? m then Some v else series_find s' m
  end.

(** [s[m]] *)
Definition series_getitem (s : Series) (m : Z) : result Exception cell :=
  match series_find s m with
  | Some v => Ok v
  | None => Raise (KeyError "month")
  end.

(** [s.get(m, default)] *)
Definition series_get (s : Series) (m : Z) (default : cell) : cell :=
  match series_find s m with
  | Some v => v
  | None => default
  end.

(** ** The data files *)

(** What [pd.read_csv] makes of a path. *)
Inductive file (row : Type) : Type :=
| Missing
| Unreadable
| Content (rows : list row).

Arguments Missing {row}.
Arguments Unreadable {row}.
Arguments Content {row} rows.

(** A row [date,temperature,kind] of [temperatures_<year>.txt]. *)
Record temp_row : Type := mk_temp_row {
  t_date : date;
  t_temp : R;
  t_type : string
}.

(** A row [date,amount] of [precipitation_<year>.txt] or
    [date,percent] of [humidity_<year>.txt]. *)
Record value_row : Type := mk_value_row {
  v_date : date;
  v_value : R
}.

(** The directory [data/processed], by year. *)
Record DataDir : Type := mkDataDir {
  temperatures : Z -> file temp_row;
  precipitation : Z -> file value_row;
  humidity : Z -> file value_row
}.

(** [os.path.exists] *)
Definition exists_ {row} (f : file row) : bool :=
  match f with Missing => false | _ => true end.

(** [pd.read_csv(path, header=None, names=...)] *)
Definition read_csv {row} (f : file row) : result Exception (list row) :=
  match f with
  | Missing => Raise FileNotFoundError
  | Unreadable => Raise ParserError
  | Content rows => Ok rows
  end.

(** [pd.to_datetime] on the date column: every field has to be a date that
    pandas can hold. *)
Definition to_datetime (ds : list date) : result Exception (list date) :=
  if negb (forallb is_calendar_date ds) then Raise DateParseError
  else if negb (forallb in_bounds ds) then Raise OutOfBoundsDatetime
  else Ok ds.

Definition temp_key_eqb (a b : date * string) : bool :=
  date_eqb (fst a) (fst b) && String.eqb (snd a) (snd b).

Definition temp_key (r : temp_row) : date * string := (t_date r, t_type r).

Definition pivot_cell (rows : list temp_row) (d : date) (k : string) : cell :=
  option_map t_temp (find (fun r => temp_key_eqb (temp_key r) (d, k)) rows).

(** [temp_data.pivot(index='date', columns='type', values='temp')]: one row
    per distinct date and one column per distinct kind, both sorted; two rows
    with the same date and kind raise [ValueError]. *)
Definition pivot (rows : list temp_row) : result Exception DataFrame :=
  if has_duplicates temp_key_eqb (map temp_key rows) then Raise ValueError
  else
    let idx := sorted_unique date_ltb (map t_date rows) in
    let cols := sorted_unique String.ltb (map t_type rows) in
    Ok (mkDataFrame idx cols
          (map (fun d => map (fun k => pivot_cell rows d k) cols) idx)).

(** [data.set_index('date')] on a two-column file: the rows as they come. *)
Definition set_index (c : string) (rows : list value_row) : DataFrame :=
  mkDataFrame (map v_date rows) [c] (map (fun r => [Some (v_value r)]) rows).

(** ** The loader: [load_data] *)

(** What [load_data] returns, field by field in the order of its tuple. *)
Record Bundle : Type := mkBundle {
  temp_pivot : DataFrame;
  precip_data : DataFrame;
  humidity_data : DataFrame;
  monthly_tmax_normal : Series;
  monthly_tmin_normal : Series;
  monthly_precip_normal : Series;
  monthly_precip_actual : Series
}.

Definition cells_of_Z (l : list Z) : list cell := map (fun v => Some (IZR v)) l.

Definition cells_of_R (l : list R) : list cell := map (fun v => Some v) l.

(** Lines 57-58 and 62-63: a humidity column on the dates of the temperature
    table, filled by [np.random.randint(30, 80, ...)]. *)
Definition dummy_humidity (idx : list date) : M DataFrame :=
  let df := empty_frame idx ["humidity"%string] in
  vals <- randint 30 80 (List.length (index df)) ;;
  lift (setitem df "humidity" (cells_of_Z vals)).

(** Lines 49-63: the inner [try] around the humidity file. *)
Definition load_humidity (fs : DataDir) (y : Z) (temp : DataFrame) : M DataFrame :=
  try_except
    (if exists_ (humidity fs y) then
       rows <- lift (read_csv (humidity fs y)) ;;
       _ <- lift (to_datetime (map v_date rows)) ;;
       ret (set_index "humidity" rows)
     else dummy_humidity (index temp))
    (fun _ => dummy_humidity (index temp)).

(** Lines 19-73: the body of the outer [try]. *)
Definition load_primary (y : Z) (fs : DataDir) : M Bundle :=
  (if negb (exists_ (temperatures fs y)) then raise FileNotFoundError else ret tt) ;;;
  temp_data <- lift (read_csv (temperatures fs y)) ;;
  _ <- lift (to_datetime (map t_date temp_data)) ;;
  temp <- lift (pivot temp_data) ;;
  (if negb (exists_ (precipitation fs y)) then raise FileNotFoundError else ret tt) ;;;
  precip_rows <- lift (read_csv (precipitation fs y)) ;;
  _ <- lift (to_datetime (map v_date precip_rows)) ;;
  let precip := set_index "precip" precip_rows in
  hum <- load_humidity fs y temp ;;
  tmax_normal <- lift (groupby_month nanmean temp "TMAX") ;;
  tmin_normal <- lift (groupby_month nanmean temp "TMIN") ;;
  precip_mean <- lift (groupby_month nanmean precip "precip") ;;
  let precip_normal := series_mul precip_mean 30 in
  precip_actual <- lift (groupby_month nansum precip "precip") ;;
  ret (mkBundle temp precip hum tmax_normal tmin_normal precip_normal precip_actual).

(** Line 94: [np.sin(2 * np.pi * day_of_year / 365)] *)
Definition seasonal_factor (day_of_year : Z) : R :=
  sin (2 * PI * IZR day_of_year / 365).

(** Lines 97-98 *)
Definition tmax_base (day_of_year : Z) : R := (75 + 25 * seasonal_factor day_of_year)%R.
Definition tmin_base (day_of_year : Z) : R := (45 + 25 * seasonal_factor day_of_year)%R.

(** Lines 92-102: one turn of the loop over the dates. *)
Definition fill_day (df : DataFrame) (d : date) : M DataFrame :=
  let day_of_year := dayofyear d in
  noise_max <- normal 0 5 ;;
  let df1 := set_loc df d "TMAX" (Some (tmax_base day_of_year + noise_max)%R) in
  noise_min <- normal 0 5 ;;
  ret (set_loc df1 d "TMIN" (Some (tmin_base day_of_year + noise_min)%R)).

(** [for x in l: s = body s x] *)
Fixpoint for_each {A S : Type} (l : list A) (body : S -> A -> M S) (s : S) : M S :=
  match l with
  | [] => ret s
  | x :: l' => s' <- body s x ;; for_each l' body s'
  end.

(** Line 110, before the noise is added: [50 + 20 * sin(2 pi i / 365)] for
    [i] in [np.arange(len(dates))]. *)
Definition humidity_wave (n : nat) : list R :=
  map (fun i => (50 + 20 * sin (2 * PI * INR i / 365))%R) (seq 0 n).

(** [x.clip(lo, hi)] *)
Definition clip (lo hi : R) (v : cell) : cell :=
  option_map (fun x => Rmin hi (Rmax lo x)) v.

(** Lines 79-121: the handler of the outer [try]. *)
Definition load_fallback (y : Z) : M Bundle :=
  dates <- lift (date_range_D y) ;;
  temp <- for_each dates fill_day (empty_frame dates ["TMAX"; "TMIN"]%string) ;;
  amounts <- exponential_n (1 / 10) (List.length dates) ;;
  precip <- lift (setitem (empty_frame dates ["precip"%string]) "precip"
                          (cells_of_R amounts)) ;;
  noise <- normal_n 0 10 (List.length dates) ;;
  hum0 <- lift (setitem (empty_frame dates ["humidity"%string]) "humidity"
                  (cells_of_R (map (fun wn => (fst wn + snd wn)%R)
                                   (combine (humidity_wave (List.length dates)) noise)))) ;;
  col <- lift (getitem hum0 "humidity") ;;
  hum <- lift (setitem hum0 "humidity" (map (clip 10 100) col)) ;;
  tmax_normal <- lift (groupby_month nanmean temp "TMAX") ;;
  tmin_normal <- lift (groupby_month nanmean temp "TMIN") ;;
  precip_mean <- lift (groupby_month nanmean precip "precip") ;;
  let precip_normal := series_mul precip_mean 30 in
  precip_actual <- lift (groupby_month nansum precip "precip") ;;
  ret (mkBundle temp precip hum tmax_normal tmin_normal precip_normal precip_actual).

(** [load_data(year)] *)
Definition load_data (y : Z) (fs : DataDir) : M Bundle :=
  try_except (load_primary y fs) (fun _ => load_fallback y).

(** ** The renderer: [create_tufte_visualization] *)

(** numpy computes [slope * (x - xp[j]) + fp[j]]; a NaN end point makes the
    value NaN. *)
Definition lerp (x x0 x1 : Z) (f0 f1 : cell) : cell :=
  match f0, f1 with
  | Some a, Some b => Some ((b - a) / IZR (x1 - x0) * IZR (x - x0) + a)%R
  | _, _ => None
  end.

(** The walk of [np.interp] along the sample points, [x0] being at or before [x]. *)
Fixpoint interp_from (x x0 : Z) (f0 : cell) (xp : list Z) (fp : list cell) : cell :=
  match xp, fp with
  | x1 :: xp', f1 :: fp' =>
      if x <? x1 then (if x =? x0 then f0 else lerp x x0 x1 f0 f1)
      else interp_from x x1 f1 xp' fp'
  | _, _ => f0
  end.

(** [np.interp] at one abscissa, for increasing sample points: the first
    sample value before them, the last one after them. *)
Definition interp1 (xp : list Z) (fp : list cell) (x : Z) : cell :=
  match xp, fp with
  | x0 :: xp', f0 :: fp' => if x <=? x0 then f0 else interp_from x x0 f0 xp' fp'
  | _, _ => None
  end.

(** [np.interp(xs, xp, fp)] *)
Definition np_interp (xs xp : list Z) (fp : list cell) : result Exception (list cell) :=
  if negb (Nat.eqb (List.length xp) (List.length fp)) then Raise ValueError
  else if Nat.eqb (List.length xp) 0 then Raise ValueError
  else Ok (map (interp1 xp fp) xs).

(** [[f(x) for x in l]] where [f] may raise. *)
Fixpoint comprehension {A B} (f : A -> result Exception B) (l : list A)
  : result Exception (list B) :=
  match l with
  | [] => Ok []
  | x :: l' => rbind (f x) (fun v => rbind (comprehension f l') (fun vs => Ok (v :: vs)))
  end.

(** matplotlib and the file system, of which only success or failure is
    kept: [begin_figure] stands for lines 131-138 and [finish_figure] for
    lines 154-272 (annotations, bars, axes, [os.makedirs], [plt.savefig]). *)
Record Backend : Type := mkBackend {
  begin_figure : Bundle -> result Exception unit;
  finish_figure : Z -> Bundle -> list cell -> list cell -> result Exception unit
}.

(** Lines 141-152: the dashed line of a monthly normal, one value per day. *)
Definition normal_lines (y : Z) (b : Bundle)
  : result Exception (list cell * list cell) :=
  rbind (date_range_MS y) (fun months =>
  rbind (comprehension (fun m => series_getitem (monthly_tmax_normal b) (month m)) months)
        (fun normal_tmax =>
  rbind (comprehension (fun m => series_getitem (monthly_tmin_normal b) (month m)) months)
        (fun normal_tmin =>
  rbind (date_range_D y) (fun extended_months =>
  rbind (np_interp (map date2num extended_months) (map date2num months) normal_tmax)
        (fun extended_tmax =>
  rbind (np_interp (map date2num extended_months) (map date2num months) normal_tmin)
        (fun extended_tmin =>
  Ok (extended_tmax, extended_tmin))))))).

(** Lines 128-273: the body of the [try] of the renderer. *)
Definition render (be : Backend) (y : Z) (fs : DataDir) : M bool :=
  b <- load_data y fs ;;
  _ <- lift (begin_figure be b) ;;
  lines <- lift (normal_lines y b) ;;
  _ <- lift (finish_figure be y b (fst lines) (snd lines)) ;;
  ret true.

(** [create_tufte_visualization(year)] *)
Definition create_tufte_visualization (be : Backend) (y : Z) (fs : DataDir) : M bool :=
  try_except (render be y fs) (fun _ => ret false).

(** ** The entry point *)

Definition is_space (c : Ascii.ascii) : bool :=
  let n := Ascii.nat_of_ascii c in
  (Nat.eqb n 32 || (Nat.leb 9 n && Nat.leb n 13))%bool.

Definition digit_of (c : Ascii.ascii) : option Z :=
  let n := Ascii.nat_of_ascii c in
  if (Nat.leb 48 n && Nat.leb n 57)%bool then Some (Z.of_nat n - 48) else None.

Fixpoint lstrip (s : list Ascii.ascii) : list Ascii.ascii :=
  match s with
  | c :: s' => if is_space c then lstrip s' else s
  | [] => []
  end.

Definition strip (s : list Ascii.ascii) : list Ascii.ascii :=
  rev (lstrip (rev (lstrip s))).

(** Decimal digits, single underscores allowed between two digits. *)
Fixpoint digits (acc : Z) (after_digit : bool) (s : list Ascii.ascii) : option Z :=
  match s with
  | [] => if after_digit then Some acc else None
  | c :: s' =>
      match digit_of c with
      | Some d => digits (10 * acc + d) true s'
      | None =>
          if (Nat.eqb (Ascii.nat_of_ascii c) 95 && after_digit)%bool then digits acc false s' else None
      end
  end.

(** [int(s)] for an ASCII string. *)
Definition int (s : string) : result Exception Z :=
  let body := strip (list_ascii_of_string s) in
  let parsed :=
    match body with
    | c :: s' =>
        if Nat.eqb (Ascii.nat_of_ascii c) 45 then option_map Z.opp (digits 0 false s')
        else if Nat.eqb (Ascii.nat_of_ascii c) 43 then digits 0 false s'
        else digits 0 false body
    | [] => None
    end in
  match parsed with
  | Some z => Ok z
  | None => Raise ValueError
  end.

(** Line 282: [int(sys.argv[1]) if len(sys.argv) > 1 else 1980] *)
Definition year_argument (argv : list string) : result Exception Z :=
  match argv with
  | _ :: a :: _ => int a
  | _ => Ok 1980
  end.

(** A run of the whole program: it ends normally or with an exception that
    nothing caught. *)
Definition Top : Type := RandomState -> result BaseException unit * RandomState.

(** Lines 282-285: the body of the [try] of the entry point; [sys.exit(1)]
    raises [SystemExit(1)]. *)
Definition main_try (be : Backend) (fs : DataDir) (argv : list string) : Top :=
  fun st =>
    match year_argument argv with
    | Raise e => (Raise (Exc e), st)
    | Ok y =>
        match create_tufte_visualization be y fs st with
        | (Ok true, st') => (Ok tt, st')
        | (Ok false, st') => (Raise (SystemExit 1), st')
        | (Raise e, st') => (Raise (Exc e), st')
        end
    end.

(** Lines 280-289: [except Exception] catches what derives from [Exception]
    and calls [sys.exit(1)]. *)
Definition main (be : Backend) (fs : DataDir) (argv : list string) : Top :=
  fun st =>
    match main_try be fs argv st with
    | (Raise (Exc _), st') => (Raise (SystemExit 1), st')
    | r => r
    end.

(** The status the interpreter exits with. *)
Definition exit_code (r : result BaseException unit) : Z :=
  match r with
  | Ok _ => 0
  | Raise (SystemExit code) => code
  | Raise (Exc _) => 1
  end.

(** ** What the specification speaks of *)

(** "The tables span exactly the calendar days of the year": every day of
    year [y] once, and nothing else. *)
Definition exact_calendar (y : Z) (l : list date) : Prop :=
  NoDup l /\
  Z.of_nat (List.length l) = days_in_year y /\
  forall d, In d l <-> (year d = y /\ is_calendar_date d = true).

(** The rows of a table whose date falls in month [m]. *)
Definition rows_of_month (df : DataFrame) (m : Z) : list (list cell) :=
  map snd (filter (fun dr => month (fst dr) =? m) (combine (index df) (values df))).

(** "That month's daily values" of column [c]: the numbers found in the rows
    of month [m], read row by row in the table itself. *)
Definition daily_values (df : DataFrame) (c : string) (m : Z) : list R :=
  match position_of c (columns df) with
  | Some i => numbers (map (fun row => nth i row None) (rows_of_month df m))
  | None => []
  end.

(** The month [m] occurs among the dates of the table. *)
Definition has_month (df : DataFrame) (m : Z) : bool :=
  existsb (fun d => month d =? m) (index df).

(** The value a monthly mapping holds for [m], 0 where it holds none. *)
Definition monthly_value (s : Series) (m : Z) : R :=
  match series_find s m with
  | Some (Some v) => v
  | _ => 0%R
  end.

(** The mapping holds a number for each of the twelve months. *)
Definition twelve_months (s : Series) : bool :=
  forallb (fun m => match series_find s m with Some (Some _) => true | _ => false end)
          (zrange 1 12).

(** The straight line through the monthly normals placed on the first day of
    each month, read at date [d]; after the last anchor, December 1st, the
    line stays at the December value. *)
Definition anchored_line (normal : Z -> R) (d : date) : R :=
  if month d <? 12 then
    (normal (month d)
     + (normal (month d + 1)%Z - normal (month d))
       * IZR (day d - 1)%Z / IZR (days_in_month (year d) (month d)))%R
  else normal 12.

(** The temperature file can be loaded: it is there, its dates are dates,
    no date and kind come twice, and both kinds occur. *)
Definition temperature_loads (f : file temp_row) : bool :=
  match f with
  | Content rows =>
      is_ok (to_datetime (map t_date rows)) &&
      negb (has_duplicates temp_key_eqb (map temp_key rows)) &&
      existsb (fun r => String.eqb (t_type r) "TMAX") rows &&
      existsb (fun r => String.eqb (t_type r) "TMIN") rows
  | _ => false
  end.

(** A two-column file is there and its dates are dates. *)
Definition values_load (f : file value_row) : bool :=
  match f with
  | Content rows => is_ok (to_datetime (map v_date rows))
  | _ => false
  end.

(** The rows of a file, none when there is no content. *)
Definition rows_of {row} (f : file row) : list row :=
  match f with
  | Content rows => rows
  | _ => []
  end.

(** The table [pivot] makes of the temperature rows, whatever it raises aside. *)
Definition pivoted (rows : list temp_row) : DataFrame :=
  let idx := sorted_unique date_ltb (map t_date rows) in
  let cols := sorted_unique String.ltb (map t_type rows) in
  mkDataFrame idx cols (map (fun d => map (fun k => pivot_cell rows d k) cols) idx).

(** A table with the single column [c]. *)
Definition single_column (idx : list date) (c : string) (vals : list cell) : DataFrame :=
  mkDataFrame idx [c] (map (fun v => [v]) vals).

(** The monthly mappings of a bundle are those of its own tables, and its
    precipitation table is one column of numbers. *)
Definition coherent (b : Bundle) : Prop :=
  groupby_month nanmean (temp_pivot b) "TMAX" = Ok (monthly_tmax_normal b) /\
  groupby_month nanmean (temp_pivot b) "TMIN" = Ok (monthly_tmin_normal b) /\
  (exists s, groupby_month nanmean (precip_data b) "precip" = Ok s /\
             monthly_precip_normal b = series_mul s 30) /\
  groupby_month nansum (precip_data b) "precip" = Ok (monthly_precip_actual b) /\
  exists idx vals, precip_data b = single_column idx "precip" (cells_of_R vals) /\
                   List.length vals = List.length idx.

(** The amounts that [np.random.exponential(0.1, size=n)] draws after the
    temperature loop has drawn twice per day. *)
Definition synthetic_amounts (y : Z) (st : RandomState) : list R :=
  let n := List.length (year_days y) in
  map (fun i => (1 / 10 * standard_exponential st (position st + 2 * n + i))%R)
      (seq 0 n).

(** The integers that [np.random.randint(30, 80, size=n)] draws in state [st]. *)
Definition humidity_draws (n : nat) (st : RandomState) : list Z :=
  map (fun i => 30 + raw_integers st (position st + i) mod (80 - 30)) (seq 0 n).

(** The mapping an aggregation returned, empty if it raised. *)
Definition series_of (r : result Exception Series) : Series :=
  match r with
  | Ok s => s
  | Raise _ => []
  end.

(** The bundle the primary path builds from its three tables (lines 66-73). *)
Definition loaded_bundle (temp precip hum : DataFrame) : Bundle :=
  mkBundle temp precip hum
    (series_of (groupby_month nanmean temp "TMAX"))
    (series_of (groupby_month nanmean temp "TMIN"))
    (series_mul (series_of (groupby_month nanmean precip "precip")) 30)
    (series_of (groupby_month nansum precip "precip")).

(** ** Sample inputs *)

Definition rng0 : RandomState :=
  mkRandomState 0 (fun _ => 0) (fun _ => 0%R) (fun _ => 0%R).

Definition rng1 : RandomState :=
  mkRandomState 0 (fun _ => 7) (fun _ => 1%R) (fun _ => 1%R).

Definition no_files : DataDir :=
  mkDataDir (fun _ => Missing) (fun _ => Missing) (fun _ => Missing).

Definition jan1 (y : Z) : date := mkdate y 1 1.

(** One day of well-formed data in each of the three files. *)
Definition one_day_files : DataDir :=
  mkDataDir
    (fun y => Content [mk_temp_row (jan1 y) 40 "TMAX"; mk_temp_row (jan1 y) 28 "TMIN"])
    (fun y => Content [mk_value_row (jan1 y) (1 / 4)])
    (fun y => Content [mk_value_row (jan1 y) 55]).

(** The same without the humidity file. *)
Definition no_humidity_files : DataDir :=
  mkDataDir (temperatures one_day_files) (precipitation one_day_files) (fun _ => Missing).

(** A temperature file with minima only, and no humidity file. *)
Definition minima_only_files : DataDir :=
  mkDataDir
    (fun y => Content [mk_temp_row (jan1 y) 28 "TMIN"])
    (precipitation one_day_files)
    (fun _ => Missing).

(** A temperature file with minima only, the other two files well formed. *)
Definition minima_only_all_files : DataDir :=
  mkDataDir
    (fun y => Content [mk_temp_row (jan1 y) 28 "TMIN"])
    (precipitation one_day_files)
    (humidity one_day_files).

(** Whatever the year asked for, a temperature file that gives the maximum
    of 2023-01-01 twice, beside well-formed precipitation and humidity files. *)
Definition duplicate_files : DataDir :=
  mkDataDir
    (fun _ => Content [mk_temp_row (jan1 2023) 40 "TMAX";
                       mk_temp_row (jan1 2023) 41 "TMAX";
                       mk_temp_row (jan1 2023) 28 "TMIN"])
    (fun _ => Content [mk_value_row (jan1 2023) (1 / 4)])
    (fun _ => Content [mk_value_row (jan1 2023) 55]).

(** Whatever the year asked for, one day of well-formed data of 2023 in each
    of the three files. *)
Definition fixed_day_files : DataDir :=
  mkDataDir
    (fun _ => Content [mk_temp_row (jan1 2023) 40 "TMAX";
                       mk_temp_row (jan1 2023) 28 "TMIN"])
    (fun _ => Content [mk_value_row (jan1 2023) (1 / 4)])
    (fun _ => Content [mk_value_row (jan1 2023) 55]).

(** A backend on which every drawing call succeeds, as the calls of
    matplotlib do on tables read from well-formed files. *)
Definition good_backend : Backend :=
  mkBackend (fun _ => Ok tt) (fun _ _ _ _ => Ok tt).

(** A backend whose first drawing calls raise. *)
Definition refusing_backend : Backend :=
  mkBackend (fun _ => Raise BackendError) (fun _ _ _ _ => Ok tt).

(** A bundle whose normals are the month numbers, for the overlay lines. *)
Definition ramp : Series := map (fun m => (m, Some (IZR m))) (zrange 1 12).

Definition ramp_bundle : Bundle :=
  mkBundle (empty_frame [] []) (empty_frame [] []) (empty_frame [] [])
           ramp ramp [] [].

(** ** The fallback in closed form *)

(** The rows that the loop of lines 91-102 writes for the dates [l], the
    first draw being [z p]: two draws per date, TMAX before TMIN. *)
Fixpoint synthetic_rows (z : nat -> R) (p : nat) (l : list date) : list (list cell) :=
  match l with
  | [] => []
  | d :: l' =>
      [Some (tmax_base (dayofyear d) + (0 + 5 * z p))%R;
       Some (tmin_base (dayofyear d) + (0 + 5 * z (p + 1)%nat))%R]
      :: synthetic_rows z (p + 2) l'
  end.

(** The humidity column of lines 110-111, the draws of the temperature loop
    and of the precipitation coming first. *)
Definition synthetic_humidity (y : Z) (st : RandomState) : list cell :=
  let n := List.length (year_days y) in
  map (clip 10 100)
      (cells_of_R
         (map (fun wn => (fst wn + snd wn)%R)
              (combine (humidity_wave n)
                       (map (fun i => (0 + 10 * standard_normal st
                                                  (position st + 2 * n + n + i))%R)
                            (seq 0 n))))).

(** The bundle of the fallback for a generator in state [st]. *)
Definition synthetic_bundle (y : Z) (st : RandomState) : Bundle :=
  loaded_bundle
    (mkDataFrame (year_days y) ["TMAX"; "TMIN"]%string
                 (synthetic_rows (standard_normal st) (position st) (year_days y)))
    (single_column (year_days y) "precip" (cells_of_R (synthetic_amounts y st)))
    (single_column (year_days y) "humidity" (synthetic_humidity y st)).

(** ** Looking a table up *)

(** [df.loc[d, c]] (lines 161-167) for a table whose dates are distinct: the
    cell of the row labelled [d] in column [c], or [KeyError]. *)
Definition loc (df : DataFrame) (d : date) (c : string) : result Exception cell :=
  match position_of c (columns df),
        find (fun dr => date_eqb (fst dr) d) (combine (index df) (values df)) with
  | Some i, Some dr => Ok (nth i (snd dr) None)
  | _, _ => Raise (KeyError c)
  end.

(** Each element is below the next one. *)
Fixpoint increasing {A} (ltb : A -> A -> bool) (l : list A) : bool :=
  match l with
  | x :: l' =>
      match l' with
      | y :: _ => ltb x y && increasing ltb l'
      | [] => true
      end
  | [] => true
  end.

(** ** The precipitation panel *)

(** [s.sum()] (lines 211-212): the sum of the numbers of a mapping. *)
Definition series_sum (s : Series) : R := Rsum (numbers (map snd s)).

(** ** The annotations of the temperature panel *)

(** [line[days.month == m][0]] (lines 173 and 178): the first value of the
    line among the days of month [m]; [None] when there is no such day and
    the indexing raises [IndexError]. *)
Definition first_of_month (line : list cell) (days : list date) (m : Z) : option cell :=
  match filter (fun dv : date * cell => month (fst dv) =? m) (combine days line) with
  | dv :: _ => Some (snd dv)
  | [] => None
  end.

(** The month after [m], December staying December. *)
Definition following_month (m : Z) : Z := if m <? 12 then m + 1 else 12.

(** ** The extreme days *)







(** The mean of some numbers, NaN when there is none. *)
Definition mean_of (l : list R) : cell :=
  match l with
  | [] => None
  | _ => Some (Rsum l / INR (List.length l))%R
  end.

(** The months and days of a year, leap or not, in calendar order. *)
Definition month_day_pairs (leap : bool) : list (Z * Z) :=
  flat_map (fun m => map (pair m)
                         (zrange 1 (Z.to_nat (match m with
                                              | 2 => if leap then 29 else 28
                                              | 4 | 6 | 9 | 11 => 30
                                              | _ => 31
                                              end))))
           (zrange 1 12).

Definition pair_ltb (a b : Z * Z) : bool :=
  (fst a <? fst b) || ((fst a =? fst b) && (snd a <? snd b)).


(** * Properties *)

(** ** The calendar *)

Section Calendar.

Lemma zrange_In lo n z : In z (zrange lo n) <-> lo <= z < lo + Z.of_nat n.
Proof.
  unfold zrange. rewrite in_map_iff. split.
  - intros [i [<- Hi]]. apply in_seq in Hi. lia.
  - intros Hz. exists (Z.to_nat (z - lo)). split; [lia|].
    apply in_seq. lia.
Qed.

Lemma zrange_NoDup lo n : NoDup (zrange lo n).
Proof.
  unfold zrange. apply NoDup_map_NoDup_ForallPairs.
  - intros i j _ _ H. lia.
  - apply seq_NoDup.
Qed.

Lemma zrange_length lo n : List.length (zrange lo n) = n.
Proof. unfold zrange. now rewrite length_map, length_seq. Qed.

Lemma days_in_month_nonneg y m : 0 <= days_in_month y m.
Proof.
  unfold days_in_month.
  repeat match goal with
         | |- context [match ?x with _ => _ end] => destruct x
         end; lia.
Qed.

Lemma month_days_In y m d :
  In d (month_days y m) <->
  year d = y /\ month d = m /\ 1 <= day d <= days_in_month y m.
Proof.
  unfold month_days. rewrite in_map_iff.
  pose proof (days_in_month_nonneg y m) as Hn. split.
  - intros [k [<- Hk]]. apply zrange_In in Hk. cbn. lia.
  - intros (Hy & Hm & Hd). exists (day d). split.
    + destruct d; cbn in *; subst; reflexivity.
    + apply zrange_In. lia.
Qed.

Lemma month_days_NoDup y m : NoDup (month_days y m).
Proof.
  unfold month_days. apply NoDup_map_NoDup_ForallPairs.
  - intros i j _ _ H. now inversion H.
  - apply zrange_NoDup.
Qed.

Lemma NoDup_flat_map_disjoint {A B} (f : A -> list B) (l : list A) :
  NoDup l ->
  (forall x, In x l -> NoDup (f x)) ->
  (forall x x' b, In x l -> In x' l -> In b (f x) -> In b (f x') -> x = x') ->
  NoDup (flat_map f l).
Proof.
  induction 1 as [|a l Ha Hl IH]; intros Hf Hdis; cbn.
  - constructor.
  - apply NoDup_app.
    + apply Hf. now left.
    + apply IH.
      * intros x Hx. apply Hf. now right.
      * intros x x' b Hx Hx'. apply Hdis; now right.
    + intros b Hb Hb'. apply in_flat_map in Hb' as [x [Hx Hbx]].
      assert (a = x) by (apply (Hdis a x b); [now left | now right | easy | easy]).
      subst. contradiction.
Qed.

Lemma year_days_In y d :
  In d (year_days y) <-> (year d = y /\ is_calendar_date d = true).
Proof.
  unfold year_days. rewrite in_flat_map. unfold is_calendar_date. split.
  - intros [m [Hm Hd]]. apply zrange_In in Hm. apply month_days_In in Hd.
    destruct Hd as (Hy & Hmm & Hday). subst m. split; [assumption|].
    rewrite Hy.
    repeat (apply andb_true_intro; split); apply Z.leb_le; lia.
  - intros [Hy H]. repeat (apply andb_prop in H as [H ?]).
    exists (month d). split.
    + apply zrange_In. lia.
    + apply month_days_In. subst y. lia.
Qed.

Lemma year_days_NoDup y : NoDup (year_days y).
Proof.
  unfold year_days. apply NoDup_flat_map_disjoint.
  - apply zrange_NoDup.
  - intros m _. apply month_days_NoDup.
  - intros m m' d _ _ H H'.
    apply month_days_In in H. apply month_days_In in H'. lia.
Qed.

Lemma year_days_length y : Z.of_nat (List.length (year_days y)) = days_in_year y.
Proof.
  unfold year_days. rewrite length_flat_map.
  unfold month_days, days_in_year.
  change (zrange 1 12) with [1; 2; 3; 4; 5; 6; 7; 8; 9; 10; 11; 12].
  cbn [map list_sum]. rewrite !length_map, !zrange_length.
  cbn [days_in_month]. destruct (is_leap y); reflexivity.
Qed.

Lemma year_days_exact y : exact_calendar y (year_days y).
Proof.
  split; [apply year_days_NoDup|].
  split; [apply year_days_length | apply year_days_In].
Qed.

Lemma Timestamp_supported y :
  year_supported y = true ->
  Timestamp y 1 1 = Ok (mkdate y 1 1) /\ Timestamp y 12 31 = Ok (mkdate y 12 31).
Proof.
  unfold year_supported. intros H. apply andb_prop in H as [H1 H2].
  apply Z.leb_le in H1. apply Z.leb_le in H2.
  unfold Timestamp, is_calendar_date, in_bounds, date_leb, date_ltb,
    Timestamp_min, Timestamp_max. cbn [year month day days_in_month].
  assert (E1 : (1677 <? y) = true) by (apply Z.ltb_lt; lia).
  assert (E2 : (y <? 2262) = true) by (apply Z.ltb_lt; lia).
  assert (E3 : (9999 <? y) = false) by (apply Z.ltb_ge; lia).
  rewrite E1, E2, E3. split; reflexivity.
Qed.

Lemma date_range_D_supported y :
  year_supported y = true -> date_range_D y = Ok (year_days y).
Proof.
  intros H. destruct (Timestamp_supported y H) as [E1 E2].
  unfold date_range_D. now rewrite E1, E2.
Qed.

Lemma date_range_MS_supported y :
  year_supported y = true ->
  date_range_MS y = Ok (map (fun m => mkdate y m 1) (zrange 1 12)).
Proof.
  intros H. destruct (Timestamp_supported y H) as [E1 E2].
  unfold date_range_MS. now rewrite E1, E2.
Qed.

End Calendar.

(** ** Computations *)

Section Computations.

Lemma bind_Ok {A B} (c : M A) (k : A -> M B) st b st' :
  bind c k st = (Ok b, st') ->
  exists a st1, c st = (Ok a, st1) /\ k a st1 = (Ok b, st').
Proof.
  unfold bind. destruct (c st) as [[a|e] st1]; intros H.
  - now exists a, st1.
  - discriminate.
Qed.

Lemma lift_Ok {A} (r : result Exception A) st a st' :
  lift r st = (Ok a, st') -> r = Ok a /\ st' = st.
Proof. unfold lift. intros H. inversion H. auto. Qed.

Lemma ret_Ok {A} (x : A) st a st' : ret x st = (Ok a, st') -> a = x /\ st' = st.
Proof. unfold ret. intros H. inversion H. auto. Qed.

Lemma rbind_Ok {E A B} (r : result E A) (k : A -> result E B) b :
  rbind r k = Ok b -> exists a, r = Ok a /\ k a = Ok b.
Proof. destruct r as [a|e]; cbn; intros H; [now exists a | discriminate]. Qed.

Lemma advance_advance n m st : advance n (advance m st) = advance (m + n) st.
Proof. unfold advance. cbn. now rewrite Nat.add_assoc. Qed.

Lemma advance_0 st : advance 0 st = st.
Proof. destruct st. unfold advance. cbn. now rewrite Nat.add_0_r. Qed.

End Computations.

(** [step H as x E]: the first statement of the computation in [H] returned
    [x], by [E]. *)
Tactic Notation "step" hyp(H) "as" ident(a) ident(E) :=
  let s := fresh "st" in
  apply bind_Ok in H as (a & s & E & H).

(** The same for a statement that leaves the generator alone. *)
Tactic Notation "pure_step" hyp(H) "as" ident(a) ident(E) :=
  let s := fresh "st" in
  apply bind_Ok in H as (a & s & E & H);
  apply lift_Ok in E as [E ->].

(** ** Tables *)

Section Tables.

Lemma set_loc_index df d c v : index (set_loc df d c v) = index df.
Proof. unfold set_loc. now destruct (position_of c (columns df)). Qed.

Lemma set_loc_columns df d c v : columns (set_loc df d c v) = columns df.
Proof. unfold set_loc. now destruct (position_of c (columns df)). Qed.

Lemma empty_frame_single idx c :
  empty_frame idx [c] = single_column idx c (map (fun _ => None) idx).
Proof. unfold empty_frame, single_column. now rewrite map_map. Qed.

Lemma set_index_single c rows :
  set_index c rows =
  single_column (map v_date rows) c (cells_of_R (map v_value rows)).
Proof. unfold set_index, single_column, cells_of_R. now rewrite !map_map. Qed.

Lemma position_of_head c cols : position_of c (c :: cols) = Some O.
Proof. cbn. now rewrite String.eqb_refl. Qed.

Lemma replace_column_0 (old vals : list cell) :
  List.length old = List.length vals ->
  map (fun rv : list cell * cell => replace_nth 0 (snd rv) (fst rv))
      (combine (map (fun v => [v]) old) vals) = map (fun v => [v]) vals.
Proof.
  revert vals. induction old as [|o old IH]; intros [|v vals] H; try discriminate.
  - reflexivity.
  - cbn. f_equal. apply IH. now inversion H.
Qed.

Lemma setitem_single idx c old vals :
  List.length old = List.length idx ->
  List.length vals = List.length idx ->
  setitem (single_column idx c old) c vals = Ok (single_column idx c vals).
Proof.
  intros Ho Hv. unfold setitem, single_column. cbn [index columns values].
  rewrite Hv, Nat.eqb_refl. cbn [negb]. rewrite position_of_head.
  rewrite replace_column_0 by congruence. reflexivity.
Qed.

Lemma setitem_Ok_length df c vals df' :
  setitem df c vals = Ok df' -> List.length vals = List.length (index df).
Proof.
  unfold setitem.
  destruct (Nat.eqb (List.length vals) (List.length (index df))) eqn:E; cbn.
  - intros _. now apply Nat.eqb_eq.
  - discriminate.
Qed.

Lemma getitem_single idx c vals : getitem (single_column idx c vals) c = Ok vals.
Proof.
  unfold getitem, single_column. cbn [columns values].
  rewrite position_of_head. rewrite map_map. cbn. now rewrite map_id.
Qed.

Lemma groupby_month_Ok agg df c col :
  getitem df c = Ok col ->
  groupby_month agg df c =
  Ok (map (fun m => (m, agg (month_cells (index df) col m)))
          (sorted_unique Z.ltb (map month (index df)))).
Proof. intros H. unfold groupby_month. now rewrite H. Qed.

Lemma getitem_columns df c :
  In c (columns df) -> exists col, getitem df c = Ok col.
Proof.
  unfold getitem. intros H.
  assert (E : exists i, position_of c (columns df) = Some i).
  { induction (columns df) as [|c' cols IH]; [contradiction|]. cbn.
    destruct (String.eqb c c') eqn:Ec; [now exists O|].
    destruct H as [->|H]; [now rewrite String.eqb_refl in Ec|].
    destruct (IH H) as [i ->]. now exists (S i). }
  destruct E as [i ->]. eauto.
Qed.

End Tables.

(** ** The synthetic fallback *)

Section Fallback.

Lemma fill_day_run df d st :
  exists df',
    fill_day df d st = (Ok df', advance 2 st) /\
    index df' = index df /\ columns df' = columns df.
Proof.
  unfold fill_day, bind, normal, ret. cbv beta iota zeta.
  eexists. split.
  - rewrite advance_advance. reflexivity.
  - now rewrite !set_loc_index, !set_loc_columns.
Qed.

Lemma for_each_fill_day dates df st :
  exists df',
    for_each dates fill_day df st = (Ok df', advance (2 * List.length dates) st) /\
    index df' = index df /\ columns df' = columns df.
Proof.
  revert df st. induction dates as [|d dates IH]; intros df st.
  - exists df. cbn [for_each List.length Nat.mul]. unfold ret.
    now rewrite advance_0.
  - cbn [for_each]. unfold bind.
    destruct (fill_day_run df d st) as (df1 & E1 & Hi1 & Hc1). rewrite E1.
    destruct (IH df1 (advance 2 st)) as (df2 & E2 & Hi2 & Hc2). rewrite E2.
    exists df2. rewrite advance_advance. split; [|split; congruence].
    do 2 f_equal. cbn [List.length]. lia.
Qed.

Lemma load_fallback_run y st :
  year_supported y = true ->
  exists b,
    load_fallback y st = (Ok b, advance (4 * List.length (year_days y)) st) /\
    coherent b /\
    index (temp_pivot b) = year_days y /\
    columns (temp_pivot b) = ["TMAX"; "TMIN"]%string /\
    precip_data b =
      single_column (year_days y) "precip" (cells_of_R (synthetic_amounts y st)) /\
    index (humidity_data b) = year_days y.
Proof.
  intros Hy. unfold load_fallback, bind, lift.
  rewrite (date_range_D_supported y Hy). cbv beta iota.
  set (dates := year_days y). set (n := List.length dates).
  destruct (for_each_fill_day dates (empty_frame dates ["TMAX"; "TMIN"]%string) st)
    as (temp & Et & Hi & Hc).
  fold n in Et. rewrite Et. cbv beta iota.
  unfold exponential_n, normal_n. cbv beta iota.
  rewrite !empty_frame_single.
  rewrite setitem_single;
    [| now rewrite length_map
     | unfold cells_of_R; now rewrite !length_map, length_seq ].
  cbv beta iota.
  rewrite setitem_single;
    [| now rewrite length_map
     | unfold cells_of_R, humidity_wave;
       rewrite !length_map, length_combine, !length_map, !length_seq;
       apply Nat.min_id ].
  cbv beta iota. rewrite getitem_single. cbv beta iota.
  rewrite setitem_single;
    [| unfold cells_of_R, humidity_wave;
       rewrite !length_map, length_combine, !length_map, !length_seq;
       apply Nat.min_id
     | unfold cells_of_R, humidity_wave;
       rewrite !length_map, length_combine, !length_map, !length_seq;
       apply Nat.min_id ].
  cbv beta iota.
  destruct (getitem_columns temp "TMAX") as [cmax Emax];
    [rewrite Hc; cbn; auto|].
  destruct (getitem_columns temp "TMIN") as [cmin Emin];
    [rewrite Hc; cbn; auto|].
  rewrite (groupby_month_Ok nanmean temp "TMAX" cmax Emax).
  rewrite (groupby_month_Ok nanmean temp "TMIN" cmin Emin).
  cbv beta iota.
  rewrite !(groupby_month_Ok _ _ "precip" _ (getitem_single _ _ _)).
  cbv beta iota. unfold ret.
  eexists. split.
  - rewrite !advance_advance. do 2 f_equal. lia.
  - unfold coherent. cbn [temp_pivot precip_data humidity_data monthly_tmax_normal
      monthly_tmin_normal monthly_precip_normal monthly_precip_actual].
    rewrite (groupby_month_Ok nanmean temp "TMAX" cmax Emax).
    rewrite (groupby_month_Ok nanmean temp "TMIN" cmin Emin).
    rewrite !(groupby_month_Ok _ _ "precip" _ (getitem_single _ _ _)).
    rewrite Hi, Hc.
    repeat split; try reflexivity.
    + eexists. split; reflexivity.
    + eexists. eexists. split; [reflexivity|].
      unfold synthetic_amounts. now rewrite !length_map, length_seq.
Qed.

End Fallback.

(** ** Sorting the labels *)

Section Sorting.

Context {A : Type} (ltb : A -> A -> bool).
Hypothesis ltb_total : forall x y, ltb x y = false -> ltb y x = false -> x = y.

Lemma insert_sorted_In x l z : In z (insert_sorted ltb x l) <-> z = x \/ In z l.
Proof.
  induction l as [|y l IH]; cbn.
  - intuition.
  - destruct (ltb x y) eqn:Exy; cbn; [intuition|].
    destruct (ltb y x) eqn:Eyx; cbn.
    + rewrite IH. intuition.
    + rewrite (ltb_total x y Exy Eyx). intuition.
Qed.

Lemma sorted_unique_In l z : In z (sorted_unique ltb l) <-> In z l.
Proof.
  unfold sorted_unique. induction l as [|x l IH]; cbn; [tauto|].
  rewrite insert_sorted_In, IH. intuition.
Qed.

End Sorting.

Lemma Zltb_total x y : (x <? y) = false -> (y <? x) = false -> x = y.
Proof. intros H1 H2. apply Z.ltb_ge in H1. apply Z.ltb_ge in H2. lia. Qed.

Lemma String_ltb_total x y : String.ltb x y = false -> String.ltb y x = false -> x = y.
Proof.
  unfold String.ltb. rewrite (String.compare_antisym y x).
  destruct (String.compare x y) eqn:E; cbn; try discriminate.
  intros _ _. now apply String.compare_eq_iff.
Qed.

Lemma date_ltb_total a b : date_ltb a b = false -> date_ltb b a = false -> a = b.
Proof.
  destruct a as [ya ma da], b as [yb mb db]. unfold date_ltb. cbn.
  intros H1 H2.
  assert (ya = yb /\ ma = mb /\ da = db) as (-> & -> & ->); [|reflexivity].
  destruct (Z.ltb_spec ya yb), (Z.ltb_spec yb ya), (Z.eqb_spec ya yb),
    (Z.eqb_spec yb ya), (Z.ltb_spec ma mb), (Z.ltb_spec mb ma),
    (Z.eqb_spec ma mb), (Z.eqb_spec mb ma), (Z.ltb_spec da db),
    (Z.ltb_spec db da); cbn in *; try discriminate; lia.
Qed.

(** ** The primary path *)

Section Primary.

Lemma read_csv_Ok {row} (f : file row) rows : read_csv f = Ok rows -> f = Content rows.
Proof. destruct f; cbn; intros H; now inversion H. Qed.

Lemma to_datetime_Ok ds ds' : to_datetime ds = Ok ds' -> is_ok (to_datetime ds) = true.
Proof. now intros ->. Qed.

Lemma is_ok_to_datetime ds : is_ok (to_datetime ds) = true -> to_datetime ds = Ok ds.
Proof.
  unfold to_datetime.
  destruct (negb (forallb is_calendar_date ds)); [discriminate|].
  destruct (negb (forallb in_bounds ds)); [discriminate|]. reflexivity.
Qed.

Lemma pivot_Ok rows df :
  pivot rows = Ok df ->
  df = pivoted rows /\ has_duplicates temp_key_eqb (map temp_key rows) = false.
Proof.
  unfold pivot, pivoted.
  destruct (has_duplicates temp_key_eqb (map temp_key rows)); intros H.
  - discriminate.
  - now inversion H.
Qed.

Lemma groupby_month_single agg idx c vals :
  groupby_month agg (single_column idx c vals) c =
  Ok (map (fun m => (m, agg (month_cells idx vals m)))
          (sorted_unique Z.ltb (map month idx))).
Proof. apply groupby_month_Ok, getitem_single. Qed.

(** What a successful primary load returns. *)
Lemma load_primary_Ok y fs st b st' :
  load_primary y fs st = (Ok b, st') ->
  coherent b /\
  exists trows prows,
    temperatures fs y = Content trows /\
    precipitation fs y = Content prows /\
    temp_pivot b = pivoted trows /\
    precip_data b = set_index "precip" prows.
Proof.
  unfold load_primary. intros H.
  step H as u1 Eex1. pure_step H as trows Eread1. pure_step H as tdates Edt1.
  pure_step H as temp Epivot.
  step H as u2 Eex2. pure_step H as prows Eread2. pure_step H as pdates Edt2.
  cbv zeta in H. step H as hum Ehum.
  pure_step H as tmaxn Emax. pure_step H as tminn Emin.
  pure_step H as pmean Emean. pure_step H as pact Eact.
  apply ret_Ok in H as [-> ->].
  apply read_csv_Ok in Eread1, Eread2. apply pivot_Ok in Epivot as [-> _].
  split.
  - unfold coherent. cbn [temp_pivot precip_data monthly_tmax_normal
      monthly_tmin_normal monthly_precip_normal monthly_precip_actual].
    repeat split; try assumption.
    + eexists. split; [eassumption | reflexivity].
    + exists (map v_date prows), (map v_value prows). rewrite set_index_single.
      split; [reflexivity | now rewrite !length_map].
  - exists trows, prows. auto.
Qed.

Lemma pivoted_has_column rows k :
  existsb (fun r => String.eqb (t_type r) k) rows = true ->
  In k (columns (pivoted rows)).
Proof.
  intros H. apply existsb_exists in H as [r [Hr Hk]].
  apply String.eqb_eq in Hk. subst k. cbn [pivoted columns].
  apply (sorted_unique_In String.ltb String_ltb_total).
  apply in_map_iff. now exists r.
Qed.

Lemma dummy_humidity_run idx st :
  dummy_humidity idx st =
  (Ok (single_column idx "humidity"
         (cells_of_Z (humidity_draws (List.length idx) st))),
   advance (List.length idx) st).
Proof.
  unfold dummy_humidity, bind, randint, lift. cbv beta iota zeta.
  rewrite empty_frame_single. cbn [index single_column].
  fold (humidity_draws (List.length idx) st).
  rewrite setitem_single; [reflexivity | now rewrite length_map |].
  unfold cells_of_Z, humidity_draws. now rewrite !length_map, length_seq.
Qed.

Lemma load_humidity_file fs y temp st :
  values_load (humidity fs y) = true ->
  load_humidity fs y temp st =
  (Ok (set_index "humidity" (rows_of (humidity fs y))), st).
Proof.
  unfold values_load, load_humidity, try_except, bind, lift, ret.
  destruct (humidity fs y) as [| |rows]; try discriminate.
  intros H. cbn [exists_ read_csv rows_of].
  now rewrite (is_ok_to_datetime _ H).
Qed.

Lemma load_humidity_dummy fs y temp st :
  values_load (humidity fs y) = false ->
  load_humidity fs y temp st = dummy_humidity (index temp) st.
Proof.
  unfold values_load, load_humidity, try_except, bind, lift, ret.
  destruct (humidity fs y) as [| |rows]; cbn [exists_ read_csv]; try reflexivity.
  - intros _. now rewrite dummy_humidity_run.
  - destruct (to_datetime (map v_date rows)); [discriminate | reflexivity].
Qed.

Lemma load_humidity_returns fs y temp st :
  exists hum st', load_humidity fs y temp st = (Ok hum, st').
Proof.
  destruct (values_load (humidity fs y)) eqn:E.
  - rewrite load_humidity_file by assumption. eauto.
  - rewrite load_humidity_dummy, dummy_humidity_run by assumption. eauto.
Qed.

(** The primary path on files that load. *)
Lemma load_primary_run y fs st hum st' :
  temperature_loads (temperatures fs y) = true ->
  values_load (precipitation fs y) = true ->
  load_humidity fs y (pivoted (rows_of (temperatures fs y))) st = (Ok hum, st') ->
  load_primary y fs st =
  (Ok (loaded_bundle (pivoted (rows_of (temperatures fs y)))
                     (set_index "precip" (rows_of (precipitation fs y))) hum),
   st').
Proof.
  unfold temperature_loads, values_load.
  destruct (temperatures fs y) as [| |trows] eqn:Et; try discriminate.
  destruct (precipitation fs y) as [| |prows] eqn:Ep; try discriminate.
  intros Ht Hp Hh. cbn [rows_of] in *.
  apply andb_prop in Ht as [Ht Hmin]. apply andb_prop in Ht as [Ht Hmax].
  apply andb_prop in Ht as [Hdt Hdup]. apply negb_true_iff in Hdup.
  destruct (getitem_columns _ _ (pivoted_has_column trows "TMAX" Hmax)) as [cmax Emax].
  destruct (getitem_columns _ _ (pivoted_has_column trows "TMIN" Hmin)) as [cmin Emin].
  unfold load_primary, loaded_bundle, bind, lift, ret, raise.
  rewrite Et, Ep. cbn [exists_ negb read_csv].
  rewrite (is_ok_to_datetime _ Hdt), (is_ok_to_datetime _ Hp).
  unfold pivot. rewrite Hdup. fold (pivoted trows). cbv zeta. rewrite Hh.
  rewrite (groupby_month_Ok nanmean _ "TMAX" cmax Emax).
  rewrite (groupby_month_Ok nanmean _ "TMIN" cmin Emin).
  rewrite set_index_single, !groupby_month_single.
  reflexivity.
Qed.

(** Two rows with the same date and kind: the primary path raises at the
    pivot, having drawn nothing. *)
Lemma load_primary_duplicates y fs st rows :
  temperatures fs y = Content rows ->
  is_ok (to_datetime (map t_date rows)) = true ->
  has_duplicates temp_key_eqb (map temp_key rows) = true ->
  load_primary y fs st = (Raise ValueError, st).
Proof.
  intros Et Hdt Hdup. unfold load_primary, bind, lift, ret, raise.
  rewrite Et. cbn [exists_ negb read_csv].
  rewrite (is_ok_to_datetime _ Hdt). unfold pivot. now rewrite Hdup.
Qed.

End Primary.

(** ** The loader never fails, within the years pandas can hold *)

Lemma in_bounds_January_1st y : in_bounds (mkdate y 1 1) = true -> 1678 <= y.
Proof.
  unfold in_bounds, date_leb, date_ltb, date_eqb, Timestamp_min.
  cbn [year month day].
  change (9 <? 1) with false. change (9 =? 1) with false.
  rewrite !andb_false_r, !orb_false_r.
  intros H. apply andb_prop in H as [H _]. apply Z.ltb_lt in H. lia.
Qed.

Lemma in_bounds_December_31st y : in_bounds (mkdate y 12 31) = true -> y <= 2261.
Proof.
  unfold in_bounds, date_leb, date_ltb, date_eqb, Timestamp_max.
  cbn [year month day].
  change (12 <? 4) with false. change (12 =? 4) with false.
  rewrite !andb_false_r, !orb_false_r.
  intros H. apply andb_prop in H as [_ H]. apply Z.ltb_lt in H. lia.
Qed.

Lemma Timestamp_Ok y m d t : Timestamp y m d = Ok t -> in_bounds (mkdate y m d) = true.
Proof.
  unfold Timestamp.
  destruct (negb (is_calendar_date (mkdate y m d)) || (9999 <? y)); [discriminate|].
  destruct (in_bounds (mkdate y m d)); [reflexivity | discriminate].
Qed.

Lemma date_range_D_Ok y l : date_range_D y = Ok l -> year_supported y = true.
Proof.
  unfold date_range_D. intros H.
  apply rbind_Ok in H as (t1 & E1 & H). apply rbind_Ok in H as (t2 & E2 & _).
  apply Timestamp_Ok, in_bounds_January_1st in E1.
  apply Timestamp_Ok, in_bounds_December_31st in E2.
  unfold year_supported. apply andb_true_intro. split; apply Z.leb_le; lia.
Qed.

Lemma load_fallback_Ok_year y st b st' :
  load_fallback y st = (Ok b, st') -> year_supported y = true.
Proof.
  unfold load_fallback. intros H. pure_step H as dates E.
  now apply date_range_D_Ok in E.
Qed.

(** C1 fails as it is written, for every year: with year 10000 and no data
    file, the handler of the outer [try] raises in its turn when it builds
    the dates of the year, and [load_data] raises to its caller. *)
Lemma load_data_raises_beyond_bounds :
  exists e, load_data 10000 no_files rng0 = (Raise e, rng0).
Proof. exists DateParseError. reflexivity. Qed.

(** C1 (amended): for every year from 1678 to 2261, whatever the three files
    are, [load_data] returns a bundle, whose monthly mappings are those of
    its own tables; an exception of the primary load is never passed on. *)
Theorem load_data_always_returns y fs st :
  year_supported y = true ->
  exists b st', load_data y fs st = (Ok b, st') /\ coherent b.
Proof.
  intros Hy. unfold load_data, try_except.
  destruct (load_primary y fs st) as [[b|e] st1] eqn:E.
  - exists b, st1. split; [reflexivity|]. now apply load_primary_Ok in E.
  - destruct (load_fallback_run y st1 Hy) as (b & Eb & Hb & _).
    exists b. eexists. split; eassumption.
Qed.

Lemma load_data_always_returns_witness :
  year_supported 1999 = true /\
  exists b st', load_data 1999 no_files rng0 = (Ok b, st') /\ coherent b.
Proof.
  split; [reflexivity|].
  apply (load_data_always_returns 1999 no_files rng0). reflexivity.
Defined.

(** ** The dates of the returned tables *)

Lemma not_exact_calendar_short y l :
  Z.of_nat (List.length l) < 365 -> ~ exact_calendar y l.
Proof.
  intros Hl (_ & Hlen & _). unfold days_in_year in Hlen.
  destruct (is_leap y); lia.
Qed.

(** C2 fails as it is written, on the primary path: with one day of data in
    each file the loader returns tables of one row, not of the 365 days of
    2023. *)
Lemma primary_tables_are_not_dense :
  exists b st',
    load_data 2023 one_day_files rng0 = (Ok b, st') /\
    index (temp_pivot b) = [jan1 2023] /\
    index (precip_data b) = [jan1 2023] /\
    ~ exact_calendar 2023 (index (temp_pivot b)) /\
    ~ exact_calendar 2023 (index (precip_data b)).
Proof.
  eexists. eexists. split; [vm_compute; reflexivity|].
  cbn [temp_pivot precip_data index].
  repeat split; apply not_exact_calendar_short; cbn; lia.
Qed.

(** C2 (amended): when the primary load raises, in a year from 1678 to
    2261, the temperature and the precipitation table that [load_data]
    returns hold each calendar day of the year exactly once (365 rows, 366
    in a leap year); when the primary load succeeds, in any year, they hold
    the dates of the files: the distinct dates of the temperature file in
    increasing order, and one row per row of the precipitation file. *)
Theorem load_data_table_dates y fs st b st' :
  load_data y fs st = (Ok b, st') ->
  (is_ok (fst (load_primary y fs st)) = false ->
   year_supported y = true ->
   exact_calendar y (index (temp_pivot b)) /\
   exact_calendar y (index (precip_data b))) /\
  (is_ok (fst (load_primary y fs st)) = true ->
   index (temp_pivot b) =
     sorted_unique date_ltb (map t_date (rows_of (temperatures fs y))) /\
   index (precip_data b) = map v_date (rows_of (precipitation fs y))).
Proof.
  unfold load_data, try_except.
  destruct (load_primary y fs st) as [[b1|e] st1] eqn:E; cbn [fst is_ok]; intros H.
  - split; [discriminate|]. intros _. inversion H; subst b1 st1.
    apply load_primary_Ok in E as (_ & trows & prows & Et & Ep & Htemp & Hprecip).
    rewrite Et, Ep, Htemp, Hprecip. cbn [rows_of]. split; reflexivity.
  - split; [|discriminate]. intros _ Hy.
    destruct (load_fallback_run y st1 Hy) as (b2 & E2 & _ & Hi & _ & Hp & _).
    rewrite E2 in H. inversion H; subst b2.
    rewrite Hi, Hp. cbn [index single_column].
    split; apply year_days_exact.
Qed.

Lemma load_data_table_dates_witness :
  (exists b st',
     load_data 2023 one_day_files rng0 = (Ok b, st') /\
     is_ok (fst (load_primary 2023 one_day_files rng0)) = true /\
     index (temp_pivot b) =
       sorted_unique date_ltb (map t_date (rows_of (temperatures one_day_files 2023))) /\
     index (precip_data b) = map v_date (rows_of (precipitation one_day_files 2023))) /\
  (exists b st',
     load_data 1999 no_files rng0 = (Ok b, st') /\
     is_ok (fst (load_primary 1999 no_files rng0)) = false /\
     year_supported 1999 = true /\
     exact_calendar 1999 (index (temp_pivot b)) /\
     exact_calendar 1999 (index (precip_data b))).
Proof.
  split.
  - eexists. eexists. split; [vm_compute; reflexivity|].
    split; [reflexivity|].
    eapply (load_data_table_dates 2023 one_day_files rng0);
      [vm_compute; reflexivity | reflexivity].
  - destruct (load_fallback_run 1999 rng0 eq_refl) as (b & Eb & _).
    exists b. eexists.
    assert (E : load_data 1999 no_files rng0 = (Ok b, advance (4 * List.length (year_days 1999)) rng0))
      by exact Eb.
    split; [exact E|]. split; [reflexivity|]. split; [reflexivity|].
    apply (load_data_table_dates 1999 no_files rng0 _ _ E); reflexivity.
Defined.

(** ** The humidity fallback *)

Lemma humidity_draws_range n st : Forall (fun v => 30 <= v < 80) (humidity_draws n st).
Proof.
  unfold humidity_draws. apply Forall_forall. intros v Hv.
  apply in_map_iff in Hv as [i [<- _]].
  pose proof (Z.mod_pos_bound (raw_integers st (position st + i)) (80 - 30)).
  lia.
Qed.

Lemma load_data_fallback y fs st e st1 :
  load_primary y fs st = (Raise e, st1) -> load_data y fs st = load_fallback y st1.
Proof. unfold load_data, try_except. now intros ->. Qed.

Lemma load_data_primary y fs st b st' :
  load_primary y fs st = (Ok b, st') -> load_data y fs st = (Ok b, st').
Proof. unfold load_data, try_except. now intros ->. Qed.

(** C3 fails as it is written: a temperature file that exists, parses and
    pivots, but holds minima only, is not returned when the humidity file is
    missing; the loader answers with the 365 synthetic days. *)
Lemma minima_only_file_is_not_kept :
  exists b st',
    load_data 2023 minima_only_files rng0 = (Ok b, st') /\
    pivot (rows_of (temperatures minima_only_files 2023))
      = Ok (pivoted (rows_of (temperatures minima_only_files 2023))) /\
    values_load (precipitation minima_only_files 2023) = true /\
    humidity minima_only_files 2023 = Missing /\
    temp_pivot b <> pivoted (rows_of (temperatures minima_only_files 2023)) /\
    precip_data b <> set_index "precip" (rows_of (precipitation minima_only_files 2023)).
Proof.
  assert (E : load_primary 2023 minima_only_files rng0
              = (Raise (KeyError "TMAX"), advance 1 rng0))
    by (vm_compute; reflexivity).
  destruct (load_fallback_run 2023 (advance 1 rng0) eq_refl)
    as (b & Eb & _ & Hi & _ & Hp & _).
  exists b. eexists. split.
  { rewrite (load_data_fallback _ _ _ _ _ E). exact Eb. }
  split; [reflexivity|]. split; [reflexivity|]. split; [reflexivity|].
  split; intros H;
    apply (f_equal (fun df => Z.of_nat (List.length (index df)))) in H.
  - rewrite Hi, year_days_length in H. vm_compute in H. discriminate H.
  - rewrite Hp in H. cbn [index single_column] in H.
    rewrite year_days_length in H. vm_compute in H. discriminate H.
Qed.

(** C3 (amended): when the temperature file exists, parses, has no date and
    kind twice and holds both kinds, and the precipitation file exists and
    parses, but the humidity file is missing or fails to parse, the
    temperature and precipitation tables that [load_data] returns are those
    of the files, and the humidity table has, on the dates of the temperature
    table, integers drawn from 30 to 79. *)
Theorem humidity_fallback_keeps_tables y fs st :
  temperature_loads (temperatures fs y) = true ->
  values_load (precipitation fs y) = true ->
  values_load (humidity fs y) = false ->
  exists b vals,
    load_data y fs st = (Ok b, advance (List.length vals) st) /\
    pivot (rows_of (temperatures fs y)) = Ok (temp_pivot b) /\
    precip_data b = set_index "precip" (rows_of (precipitation fs y)) /\
    humidity_data b =
      single_column (index (temp_pivot b)) "humidity" (cells_of_Z vals) /\
    List.length vals = List.length (index (temp_pivot b)) /\
    Forall (fun v => 30 <= v < 80) vals.
Proof.
  intros Ht Hp Hh.
  set (temp := pivoted (rows_of (temperatures fs y))).
  pose proof (load_humidity_dummy fs y temp st Hh) as Ehum.
  rewrite dummy_humidity_run in Ehum.
  pose proof (load_primary_run y fs st _ _ Ht Hp Ehum) as Erun.
  apply load_data_primary in Erun.
  eexists. exists (humidity_draws (List.length (index temp)) st).
  assert (Hlen : List.length (humidity_draws (List.length (index temp)) st)
                 = List.length (index temp))
    by (unfold humidity_draws; now rewrite length_map, length_seq).
  split; [rewrite Hlen; exact Erun|].
  cbn [temp_pivot precip_data humidity_data loaded_bundle].
  repeat split; try assumption; try apply humidity_draws_range.
  unfold temperature_loads in Ht.
  destruct (temperatures fs y) as [| |trows]; try discriminate.
  apply andb_prop in Ht as [Ht _]. apply andb_prop in Ht as [Ht _].
  apply andb_prop in Ht as [_ Hdup]. apply negb_true_iff in Hdup.
  cbn [rows_of]. unfold pivot. now rewrite Hdup.
Qed.

Lemma humidity_fallback_keeps_tables_witness :
  temperature_loads (temperatures no_humidity_files 2023) = true /\
  values_load (precipitation no_humidity_files 2023) = true /\
  values_load (humidity no_humidity_files 2023) = false /\
  exists b vals,
    load_data 2023 no_humidity_files rng1 = (Ok b, advance (List.length vals) rng1) /\
    pivot (rows_of (temperatures no_humidity_files 2023)) = Ok (temp_pivot b) /\
    precip_data b = set_index "precip" (rows_of (precipitation no_humidity_files 2023)) /\
    humidity_data b =
      single_column (index (temp_pivot b)) "humidity" (cells_of_Z vals) /\
    List.length vals = List.length (index (temp_pivot b)) /\
    Forall (fun v => 30 <= v < 80) vals.
Proof.
  split; [reflexivity|]. split; [reflexivity|]. split; [reflexivity|].
  apply (humidity_fallback_keeps_tables 2023 no_humidity_files rng1); reflexivity.
Defined.

(** ** Randomness *)

Lemma synthetic_amounts_head y st :
  (0 < List.length (year_days y))%nat ->
  hd 0%R (synthetic_amounts y st)
  = (1 / 10 * standard_exponential st
                (position st + 2 * List.length (year_days y) + 0))%R.
Proof.
  unfold synthetic_amounts. cbv zeta.
  destruct (List.length (year_days y)) as [|n]; [lia|]. intros _. reflexivity.
Qed.

Lemma cells_of_R_inj l l' : cells_of_R l = cells_of_R l' -> l = l'.
Proof.
  unfold cells_of_R. revert l'.
  induction l as [|v l IH]; intros [|v' l'] H; try discriminate; [reflexivity|].
  cbn in H. inversion H. f_equal. now apply IH.
Qed.

Lemma single_column_inj idx c vals vals' :
  single_column idx c vals = single_column idx c vals' -> vals = vals'.
Proof.
  unfold single_column. intros H. inversion H as [Hv]. clear H. revert vals' Hv.
  induction vals as [|v vals IH]; intros [|v' vals'] H; try discriminate; [reflexivity|].
  cbn in H. inversion H. f_equal. now apply IH.
Qed.

(** C9 fails as it is written: the three files exist and parse, the
    temperature file holding minima only; two runs that start from two states
    of the generator return different bundles. *)
Lemma parsed_files_may_use_randomness :
  is_ok (rbind (read_csv (temperatures minima_only_all_files 2023))
               (fun rows => to_datetime (map t_date rows))) = true /\
  values_load (precipitation minima_only_all_files 2023) = true /\
  values_load (humidity minima_only_all_files 2023) = true /\
  is_ok (fst (load_data 2023 minima_only_all_files rng0)) = true /\
  fst (load_data 2023 minima_only_all_files rng0)
  <> fst (load_data 2023 minima_only_all_files rng1).
Proof.
  split; [reflexivity|]. split; [reflexivity|]. split; [reflexivity|].
  assert (E0 : load_primary 2023 minima_only_all_files rng0
               = (Raise (KeyError "TMAX"), rng0)) by (vm_compute; reflexivity).
  assert (E1 : load_primary 2023 minima_only_all_files rng1
               = (Raise (KeyError "TMAX"), rng1)) by (vm_compute; reflexivity).
  rewrite (load_data_fallback _ _ _ _ _ E0), (load_data_fallback _ _ _ _ _ E1).
  destruct (load_fallback_run 2023 rng0 eq_refl) as (b0 & Eb0 & _ & _ & _ & Hp0 & _).
  destruct (load_fallback_run 2023 rng1 eq_refl) as (b1 & Eb1 & _ & _ & _ & Hp1 & _).
  rewrite Eb0, Eb1. cbn [fst is_ok]. split; [reflexivity|].
  intros H. inversion H as [Hb]. clear H.
  apply (f_equal precip_data) in Hb. rewrite Hp0, Hp1 in Hb.
  apply single_column_inj, cells_of_R_inj in Hb.
  apply (f_equal (hd 0%R)) in Hb.
  assert (Hn : (0 < List.length (year_days 2023))%nat).
  { pose proof (year_days_length 2023) as L.
    change (days_in_year 2023) with 365 in L. lia. }
  rewrite !(synthetic_amounts_head _ _ Hn) in Hb.
  cbn [standard_exponential rng0 rng1] in Hb. lra.
Qed.

(** C9 (amended): when the temperature file exists, parses, has no date and
    kind twice and holds both kinds, and the precipitation and humidity files
    exist and parse, [load_data] returns a bundle, draws nothing from the
    random generator, and returns the same bundle from any two states of the
    generator. *)
Theorem load_data_deterministic_on_files y fs st1 st2 :
  temperature_loads (temperatures fs y) = true ->
  values_load (precipitation fs y) = true ->
  values_load (humidity fs y) = true ->
  is_ok (fst (load_data y fs st1)) = true /\
  snd (load_data y fs st1) = st1 /\
  fst (load_data y fs st1) = fst (load_data y fs st2).
Proof.
  intros Ht Hp Hh.
  pose proof (load_primary_run y fs st1 _ _ Ht Hp (load_humidity_file fs y _ st1 Hh)) as E1.
  pose proof (load_primary_run y fs st2 _ _ Ht Hp (load_humidity_file fs y _ st2 Hh)) as E2.
  apply load_data_primary in E1, E2. rewrite E1, E2.
  repeat split.
Qed.

Lemma load_data_deterministic_on_files_witness :
  temperature_loads (temperatures one_day_files 2023) = true /\
  values_load (precipitation one_day_files 2023) = true /\
  values_load (humidity one_day_files 2023) = true /\
  is_ok (fst (load_data 2023 one_day_files rng0)) = true /\
  snd (load_data 2023 one_day_files rng0) = rng0 /\
  fst (load_data 2023 one_day_files rng0) = fst (load_data 2023 one_day_files rng1).
Proof.
  split; [reflexivity|]. split; [reflexivity|]. split; [reflexivity|].
  apply (load_data_deterministic_on_files 2023 one_day_files rng0 rng1); reflexivity.
Defined.

(** ** Duplicate temperature rows *)

(** C10 fails as it is written, for every year: the maximum of 2023-01-01
    stands twice in the temperature file and the year asked for is 10000; the
    pivot raises, the precipitation file is well formed, and the fallback
    raises in its turn: no bundle is returned. *)
Lemma duplicate_rows_beyond_bounds :
  has_duplicates temp_key_eqb
    (map temp_key (rows_of (temperatures duplicate_files 10000))) = true /\
  pivot (rows_of (temperatures duplicate_files 10000)) = Raise ValueError /\
  values_load (precipitation duplicate_files 10000) = true /\
  exists e, load_data 10000 duplicate_files rng0 = (Raise e, rng0).
Proof.
  split; [reflexivity|]. split; [reflexivity|]. split; [reflexivity|].
  exists DateParseError. reflexivity.
Qed.

(** C10 (amended): when the temperature file exists and parses but holds
    two rows with the same date and kind, the pivot raises [ValueError] and
    [load_data] does what it does when no file exists at all: nothing read
    from the files is kept, and for a year from 1678 to 2261 it returns the
    synthetic bundle, whose tables run over the calendar days of that year. *)
Theorem duplicate_rows_give_synthetic_bundle y fs st rows :
  temperatures fs y = Content rows ->
  is_ok (to_datetime (map t_date rows)) = true ->
  has_duplicates temp_key_eqb (map temp_key rows) = true ->
  year_supported y = true ->
  pivot rows = Raise ValueError /\
  load_data y fs st = load_fallback y st /\
  load_data y fs st = load_data y no_files st /\
  exists b st',
    load_data y fs st = (Ok b, st') /\
    index (temp_pivot b) = year_days y /\
    precip_data b
      = single_column (year_days y) "precip" (cells_of_R (synthetic_amounts y st)) /\
    index (humidity_data b) = year_days y.
Proof.
  intros Et Hdt Hdup Hy.
  pose proof (load_primary_duplicates y fs st rows Et Hdt Hdup) as E.
  split; [unfold pivot; now rewrite Hdup|].
  split; [exact (load_data_fallback _ _ _ _ _ E)|].
  split; [rewrite (load_data_fallback _ _ _ _ _ E); reflexivity|].
  rewrite (load_data_fallback _ _ _ _ _ E).
  destruct (load_fallback_run y st Hy) as (b & Eb & _ & Hi & _ & Hp & Hh).
  exists b. eexists. split; [exact Eb|]. auto.
Qed.

Lemma duplicate_rows_give_synthetic_bundle_witness :
  temperatures duplicate_files 2023 = Content (rows_of (temperatures duplicate_files 2023)) /\
  is_ok (to_datetime (map t_date (rows_of (temperatures duplicate_files 2023)))) = true /\
  has_duplicates temp_key_eqb
    (map temp_key (rows_of (temperatures duplicate_files 2023))) = true /\
  year_supported 2023 = true /\
  pivot (rows_of (temperatures duplicate_files 2023)) = Raise ValueError /\
  load_data 2023 duplicate_files rng0 = load_fallback 2023 rng0 /\
  load_data 2023 duplicate_files rng0 = load_data 2023 no_files rng0 /\
  exists b st',
    load_data 2023 duplicate_files rng0 = (Ok b, st') /\
    index (temp_pivot b) = year_days 2023 /\
    precip_data b
      = single_column (year_days 2023) "precip"
          (cells_of_R (synthetic_amounts 2023 rng0)) /\
    index (humidity_data b) = year_days 2023.
Proof.
  split; [reflexivity|]. split; [reflexivity|]. split; [reflexivity|].
  split; [reflexivity|].
  apply (duplicate_rows_give_synthetic_bundle 2023 duplicate_files rng0
           (rows_of (temperatures duplicate_files 2023))); reflexivity.
Defined.

(** ** The renderer and the entry point *)

(** C5: [create_tufte_visualization] never raises: it returns [True] when
    its body ran to the end and [False] when anything in it raised; and the
    program exits with status 0 when the renderer returned [True], with
    status 1 when it returned [False] or when the year argument made [int]
    raise. *)
Theorem renderer_reports_failure_as_a_value be fs st :
  (forall y,
     exists ok st',
       create_tufte_visualization be y fs st = (Ok ok, st') /\
       (ok = true <-> fst (render be y fs st) = Ok true) /\
       (ok = false <-> exists e, fst (render be y fs st) = Raise e)) /\
  (forall argv,
     exit_code (fst (main be fs argv st))
     = match year_argument argv with
       | Ok y =>
           match fst (create_tufte_visualization be y fs st) with
           | Ok true => 0
           | _ => 1
           end
       | Raise _ => 1
       end).
Proof.
  split.
  - intros y. unfold create_tufte_visualization, try_except, ret.
    assert (Hr : forall ok s, render be y fs st = (Ok ok, s) -> ok = true).
    { unfold render. intros ok s H.
      step H as b E1. pure_step H as u1 E2. pure_step H as lines E3.
      pure_step H as u2 E4. now apply ret_Ok in H as [-> _]. }
    destruct (render be y fs st) as [[ok|e] s] eqn:E; cbn [fst].
    + rewrite (Hr ok s eq_refl). exists true, s. repeat split; try easy.
      intros [e He]. discriminate He.
    + exists false, s. repeat split; try easy. intros _. now exists e.
  - intros argv. unfold main, main_try.
    destruct (year_argument argv) as [y|e]; [|reflexivity].
    destruct (create_tufte_visualization be y fs st) as [[[|]|e] s]; reflexivity.
Qed.

(** ** The seasonal model of the fallback *)

Section Seasons.

Open Scope R_scope.

Lemma seasonal_factor_early d :
  (1 <= d <= 31)%Z ->
  sin (PI / 365) < seasonal_factor d.
Proof.
  intros [H1 H2]. unfold seasonal_factor.
  apply IZR_le in H1, H2. pose proof PI_RGT_0 as Hpi.
  apply sin_increasing_1; try nra.
Qed.

Lemma seasonal_factor_late d :
  (182 <= d <= 213)%Z ->
  seasonal_factor d <= sin (PI / 365).
Proof.
  intros [H1 H2]. unfold seasonal_factor. pose proof PI_RGT_0 as Hpi.
  destruct (Z.eq_dec d 182) as [->|Hne].
  - right. rewrite <- sin_PI_x. f_equal. field.
  - left. assert (H3 : (183 <= d)%Z) by lia.
    apply IZR_le in H3, H2.
    apply Rlt_trans with 0.
    + apply sin_lt_0; nra.
    + apply sin_gt_0; nra.
Qed.

Lemma dayofyear_January d : month d = 1%Z -> dayofyear d = day d.
Proof. unfold dayofyear. intros ->. cbn. lia. Qed.

Lemma dayofyear_July d :
  month d = 7%Z -> dayofyear d = (181 + (if is_leap (year d) then 1 else 0) + day d)%Z.
Proof. unfold dayofyear, days_before_month. intros ->. cbn [Z.ltb Z.compare Pos.compare Pos.compare_cont andb]. lia. Qed.

End Seasons.

(** C4, what the code does: in every year, the base value of TMAX of each
    day of January is above that of each day of July; the sinusoid of the
    fallback has its crest in early April and its trough in early October. *)
Theorem synthetic_January_is_warmer_than_July (winter summer : date) :
  month winter = 1 -> is_calendar_date winter = true ->
  month summer = 7 -> is_calendar_date summer = true ->
  (tmax_base (dayofyear summer) < tmax_base (dayofyear winter))%R.
Proof.
  intros Hw Hcw Hs Hcs. unfold is_calendar_date in Hcw, Hcs.
  rewrite Hw in Hcw. rewrite Hs in Hcs. cbn [days_in_month] in Hcw, Hcs.
  repeat (apply andb_prop in Hcw as [Hcw ?]).
  repeat (apply andb_prop in Hcs as [Hcs ?]).
  rewrite (dayofyear_January _ Hw), (dayofyear_July _ Hs).
  assert (Hd : 1 <= day winter <= 31) by lia.
  assert (Hj : 182 <= 181 + (if is_leap (year summer) then 1 else 0) + day summer <= 213)
    by (destruct (is_leap (year summer)); lia).
  pose proof (seasonal_factor_early _ Hd).
  pose proof (seasonal_factor_late _ Hj).
  unfold tmax_base. lra.
Qed.

Lemma synthetic_January_is_warmer_than_July_witness :
  (tmax_base (dayofyear (mkdate 1999 7 15)) < tmax_base (dayofyear (mkdate 1999 1 15)))%R.
Proof.
  apply (synthetic_January_is_warmer_than_July (mkdate 1999 1 15) (mkdate 1999 7 15));
    reflexivity.
Defined.

(** ** Monthly precipitation *)

Section Monthly.

Lemma series_find_keys (f : Z -> cell) keys m :
  series_find (map (fun k => (k, f k)) keys) m
  = if existsb (Z.eqb m) keys then Some (f m) else None.
Proof.
  induction keys as [|k keys IH]; cbn; [reflexivity|].
  rewrite (Z.eqb_sym m k). destruct (Z.eqb_spec k m) as [->|_]; cbn; auto.
Qed.

Lemma series_find_mul s k m :
  series_find (series_mul s k) m
  = option_map (option_map (fun v => (v * k)%R)) (series_find s m).
Proof.
  unfold series_mul. induction s as [|[m' v] s IH]; cbn; [reflexivity|].
  destruct (m' =? m); cbn; auto.
Qed.

Lemma month_keys idx m :
  existsb (Z.eqb m) (sorted_unique Z.ltb (map month idx))
  = existsb (fun d => month d =? m) idx.
Proof.
  apply Bool.eq_iff_eq_true. rewrite !existsb_exists. split.
  - intros [k [Hk E]]. apply Z.eqb_eq in E. subst k.
    rewrite (sorted_unique_In Z.ltb Zltb_total) in Hk.
    apply in_map_iff in Hk as [d [Hd Hin]]. exists d. split; [assumption|].
    now apply Z.eqb_eq.
  - intros [d [Hin E]]. apply Z.eqb_eq in E. exists m. split; [|apply Z.eqb_refl].
    apply (sorted_unique_In Z.ltb Zltb_total). apply in_map_iff. now exists d.
Qed.

(** The amounts of the days of month [m], in the order of the table. *)
Lemma month_cells_numbers idx vals m :
  numbers (month_cells idx (cells_of_R vals) m)
  = map snd (filter (fun dv : date * R => month (fst dv) =? m) (combine idx vals)).
Proof.
  unfold month_cells, cells_of_R. revert vals.
  induction idx as [|d idx IH]; intros [|v vals]; cbn; try reflexivity.
  destruct (month d =? m); cbn; now rewrite IH.
Qed.

Lemma rows_of_month_single idx c cells m :
  map (fun row => nth 0 row None) (rows_of_month (single_column idx c cells) m)
  = month_cells idx cells m.
Proof.
  unfold rows_of_month, month_cells, single_column. cbn [index values].
  revert cells. induction idx as [|d idx IH]; intros [|v cells]; cbn; try reflexivity.
  destruct (month d =? m); cbn; now rewrite IH.
Qed.

Lemma daily_values_single idx c cells m :
  daily_values (single_column idx c cells) c m = numbers (month_cells idx cells m).
Proof.
  unfold daily_values. cbn [columns single_column].
  rewrite position_of_head. now rewrite rows_of_month_single.
Qed.

Lemma month_rows_count idx (vals : list R) m :
  List.length vals = List.length idx ->
  List.length (filter (fun dv : date * R => month (fst dv) =? m) (combine idx vals))
  = List.length (filter (fun d => month d =? m) idx).
Proof.
  revert vals. induction idx as [|d idx IH]; intros [|v vals] H; try discriminate;
    [reflexivity|].
  cbn. destruct (month d =? m); cbn; rewrite IH; auto.
Qed.

Lemma month_present idx m :
  existsb (fun d => month d =? m) idx = true ->
  (0 < List.length (filter (fun d => (month d =? m)%Z) idx))%nat.
Proof.
  induction idx as [|d idx IH]; cbn; [discriminate|].
  destruct (month d =? m); cbn; [lia | exact IH].
Qed.

Lemma month_absent idx (vals : list R) m :
  existsb (fun d => month d =? m) idx = false ->
  filter (fun dv : date * R => month (fst dv) =? m) (combine idx vals) = [].
Proof.
  revert vals. induction idx as [|d idx IH]; intros [|v vals]; cbn; try reflexivity.
  destruct (month d =? m); cbn; [discriminate | apply IH].
Qed.

Lemma month_cells_length idx (vals : list R) m :
  List.length (month_cells idx (cells_of_R vals) m)
  = List.length (filter (fun dv : date * R => month (fst dv) =? m) (combine idx vals)).
Proof.
  unfold month_cells, cells_of_R. rewrite length_map. revert vals.
  induction idx as [|d idx IH]; intros [|v vals]; cbn; try reflexivity.
  destruct (month d =? m); cbn; now rewrite IH.
Qed.

Lemma rows_of_month_length idx c (vals : list R) m :
  List.length (rows_of_month (single_column idx c (cells_of_R vals)) m)
  = List.length (filter (fun dv : date * R => month (fst dv) =? m) (combine idx vals)).
Proof.
  rewrite <- month_cells_length, <- (rows_of_month_single idx c).
  now rewrite length_map.
Qed.

Lemma load_data_coherent y fs st b st' :
  load_data y fs st = (Ok b, st') -> coherent b.
Proof.
  unfold load_data, try_except.
  destruct (load_primary y fs st) as [[b1|e] st1] eqn:E; intros H.
  - inversion H; subst. now apply load_primary_Ok in E.
  - pose proof (load_fallback_Ok_year _ _ _ _ H) as Hy.
    destruct (load_fallback_run y st1 Hy) as (b2 & E2 & Hc & _).
    rewrite E2 in H. now inversion H; subst.
Qed.

End Monthly.

(** C6: on either path, for every month, what the monthly actual mapping of
    the returned bundle holds is the sum of the daily precipitation values
    of that month in the returned precipitation table: the mapping has an
    entry, equal to that sum, for each month that occurs in the table, and
    [get(m, 0)] of line 202 reads the sum for every month. *)
Theorem monthly_actual_is_the_sum_of_the_days y fs st b st' m :
  load_data y fs st = (Ok b, st') ->
  series_get (monthly_precip_actual b) m (Some 0%R)
    = Some (Rsum (daily_values (precip_data b) "precip" m)) /\
  (has_month (precip_data b) m = true ->
   series_find (monthly_precip_actual b) m
     = Some (Some (Rsum (daily_values (precip_data b) "precip" m)))) /\
  (has_month (precip_data b) m = false ->
   series_find (monthly_precip_actual b) m = None) /\
  List.length (daily_values (precip_data b) "precip" m)
    = List.length (rows_of_month (precip_data b) m).
Proof.
  intros H. apply load_data_coherent in H.
  destruct H as (_ & _ & _ & Hact & idx & vals & Hp & Hlen).
  rewrite Hp in *. rewrite groupby_month_single in Hact.
  inversion Hact as [Hs]. clear Hact.
  unfold series_get, has_month. cbn [index single_column].
  rewrite (series_find_keys (fun k => nansum (month_cells idx (cells_of_R vals) k))).
  rewrite month_keys, daily_values_single. unfold nansum.
  rewrite rows_of_month_length, month_cells_numbers, length_map.
  destruct (existsb (fun d => month d =? m) idx) eqn:E;
    repeat split; try reflexivity; try discriminate.
  rewrite (month_absent idx vals m E). reflexivity.
Qed.

Lemma monthly_actual_is_the_sum_of_the_days_witness :
  exists b st',
    load_data 2023 one_day_files rng0 = (Ok b, st') /\
    series_get (monthly_precip_actual b) 1 (Some 0%R)
      = Some (Rsum (daily_values (precip_data b) "precip" 1)) /\
    (has_month (precip_data b) 1 = true ->
     series_find (monthly_precip_actual b) 1
       = Some (Some (Rsum (daily_values (precip_data b) "precip" 1)))) /\
    (has_month (precip_data b) 1 = false ->
     series_find (monthly_precip_actual b) 1 = None) /\
    List.length (daily_values (precip_data b) "precip" 1)
      = List.length (rows_of_month (precip_data b) 1).
Proof.
  eexists. eexists. split; [vm_compute; reflexivity|].
  eapply (monthly_actual_is_the_sum_of_the_days 2023 one_day_files rng0).
  vm_compute. reflexivity.
Defined.

(** C7: on either path, for every month that occurs in the returned
    precipitation table, the monthly normal of the bundle is the mean of the
    daily values of that month, each row counting, multiplied by 30. *)
Theorem monthly_normal_is_thirty_times_the_mean y fs st b st' m :
  load_data y fs st = (Ok b, st') ->
  has_month (precip_data b) m = true ->
  series_find (monthly_precip_normal b) m
    = Some (Some (Rsum (daily_values (precip_data b) "precip" m)
                  / INR (List.length (daily_values (precip_data b) "precip" m))
                  * 30)%R) /\
  List.length (daily_values (precip_data b) "precip" m)
    = List.length (rows_of_month (precip_data b) m) /\
  (0 < List.length (daily_values (precip_data b) "precip" m))%nat.
Proof.
  intros H. apply load_data_coherent in H.
  destruct H as (_ & _ & (s & Hs & Hn) & _ & idx & vals & Hp & Hlen).
  rewrite Hn. clear Hn. rewrite Hp in *. rewrite groupby_month_single in Hs.
  inversion Hs as [Es]. clear Hs Es.
  unfold has_month. cbn [index single_column]. intros Hm.
  rewrite series_find_mul.
  rewrite (series_find_keys (fun k => nanmean (month_cells idx (cells_of_R vals) k))).
  rewrite month_keys, Hm, daily_values_single, rows_of_month_length.
  unfold nanmean. rewrite month_cells_numbers.
  pose proof (month_present idx m Hm) as Hpos.
  rewrite <- (month_rows_count idx vals m Hlen) in Hpos.
  rewrite <- (length_map snd) in Hpos. rewrite <- (length_map snd).
  destruct (map snd (filter (fun dv : date * R => month (fst dv) =? m)
                            (combine idx vals)))
    as [|v rest]; [cbn in Hpos; lia|].
  cbn [option_map]. repeat split; assumption.
Qed.

Lemma monthly_normal_is_thirty_times_the_mean_witness :
  exists b st',
    load_data 2023 one_day_files rng0 = (Ok b, st') /\
    has_month (precip_data b) 1 = true /\
    series_find (monthly_precip_normal b) 1
      = Some (Some (Rsum (daily_values (precip_data b) "precip" 1)
                    / INR (List.length (daily_values (precip_data b) "precip" 1))
                    * 30)%R) /\
    List.length (daily_values (precip_data b) "precip" 1)
      = List.length (rows_of_month (precip_data b) 1) /\
    (0 < List.length (daily_values (precip_data b) "precip" 1))%nat.
Proof.
  eexists. eexists. split; [vm_compute; reflexivity|].
  split; [reflexivity|].
  eapply (monthly_normal_is_thirty_times_the_mean 2023 one_day_files rng0).
  - vm_compute. reflexivity.
  - reflexivity.
Defined.

(** ** The normal lines of the temperature panel *)

Section NormalLines.

Lemma date2num_parts y m k :
  date2num (mkdate y m k)
  = (days_before_year y - 719163) + days_before_month y m + k.
Proof. unfold date2num, toordinal, dayofyear. cbn [year month day]. lia. Qed.

Lemma comprehension_normals y s l :
  forallb (fun m => match series_find s m with Some (Some _) => true | _ => false end) l
    = true ->
  comprehension (fun d => series_getitem s (month d)) (map (fun m => mkdate y m 1) l)
  = Ok (map (fun m => Some (monthly_value s m)) l).
Proof.
  induction l as [|m l IH]; cbn [forallb map comprehension]; [reflexivity|].
  intros H. apply andb_prop in H as [Hm Hl]. rewrite (IH Hl).
  unfold series_getitem, monthly_value. cbn [month].
  destruct (series_find s m) as [[v|]|]; try discriminate. reflexivity.
Qed.

End NormalLines.

Ltac decide_comparisons :=
  repeat match goal with
         | |- context [?a <? ?b] =>
             (rewrite (proj2 (Z.ltb_lt a b)) by lia)
             || (rewrite (proj2 (Z.ltb_ge a b)) by lia)
         | |- context [?a <=? ?b] =>
             (rewrite (proj2 (Z.leb_le a b)) by lia)
             || (rewrite (proj2 (Z.leb_gt a b)) by lia)
         | |- context [?a =? ?b] =>
             (rewrite (proj2 (Z.eqb_eq a b)) by lia)
             || (rewrite (proj2 (Z.eqb_neq a b)) by lia)
         end.

(** [np.interp] over the twelve month starts, read at a day of the year. *)
Lemma interp1_month_starts y (n : Z -> R) d :
  In d (year_days y) ->
  interp1 (map date2num (map (fun m => mkdate y m 1) (zrange 1 12)))
          (map (fun m => Some (n m)) (zrange 1 12)) (date2num d)
  = Some (anchored_line n d).
Proof.
  intros H. apply year_days_In in H as [Hy Hc]. destruct d as [y' m k].
  cbn [year] in Hy. subst y'. unfold is_calendar_date in Hc.
  cbn [year month day] in Hc.
  repeat (apply andb_prop in Hc as [Hc ?]).
  assert (Hm : m = 1 \/ m = 2 \/ m = 3 \/ m = 4 \/ m = 5 \/ m = 6 \/ m = 7 \/
               m = 8 \/ m = 9 \/ m = 10 \/ m = 11 \/ m = 12) by lia.
  change (zrange 1 12) with [1; 2; 3; 4; 5; 6; 7; 8; 9; 10; 11; 12].
  cbn [map]. rewrite !date2num_parts.
  set (B := days_before_year y - 719163).
  unfold anchored_line. cbn [year month day].
  unfold days_before_month.
  destruct (Z.eq_dec k 1) as [->|Hk];
    destruct (is_leap y) eqn:L;
    repeat (destruct Hm as [Hm|Hm]); subst m;
    cbn [days_in_month] in *; try rewrite L in *;
    cbn [Z.ltb Z.compare Pos.compare Pos.compare_cont andb Z.add Pos.add Pos.succ];
    unfold interp1, interp_from; decide_comparisons;
    try reflexivity; unfold lerp; f_equal;
    rewrite ?minus_IZR, ?plus_IZR; field; lra.
Qed.

(** C8: for a year from 1678 to 2261 and monthly normals that hold a number
    for each of the twelve months, the two overlay lines are, day by day, the
    linear interpolation of the twelve monthly normals placed on the first
    day of each month; from December 1st, the last anchor, to December 31st
    the line keeps the December value. *)
Theorem normal_lines_interpolate_month_starts y b :
  year_supported y = true ->
  twelve_months (monthly_tmax_normal b) = true ->
  twelve_months (monthly_tmin_normal b) = true ->
  normal_lines y b
  = Ok (map (fun d => Some (anchored_line (monthly_value (monthly_tmax_normal b)) d))
            (year_days y),
        map (fun d => Some (anchored_line (monthly_value (monthly_tmin_normal b)) d))
            (year_days y)).
Proof.
  intros Hy Hmax Hmin. unfold normal_lines, twelve_months in *.
  rewrite (date_range_MS_supported y Hy), (date_range_D_supported y Hy).
  cbn [rbind].
  rewrite (comprehension_normals y _ _ Hmax), (comprehension_normals y _ _ Hmin).
  cbn [rbind]. unfold np_interp.
  rewrite !length_map, zrange_length. cbn [Nat.eqb negb rbind].
  rewrite !map_map. do 2 f_equal; apply map_ext_in; intros d Hd;
    apply (interp1_month_starts y _ d Hd).
Qed.

Lemma normal_lines_interpolate_month_starts_witness :
  year_supported 2023 = true /\
  twelve_months (monthly_tmax_normal ramp_bundle) = true /\
  twelve_months (monthly_tmin_normal ramp_bundle) = true /\
  normal_lines 2023 ramp_bundle
  = Ok (map (fun d => Some (anchored_line (monthly_value (monthly_tmax_normal ramp_bundle)) d))
            (year_days 2023),
        map (fun d => Some (anchored_line (monthly_value (monthly_tmin_normal ramp_bundle)) d))
            (year_days 2023)).
Proof.
  split; [reflexivity|]. split; [reflexivity|]. split; [reflexivity|].
  apply (normal_lines_interpolate_month_starts 2023 ramp_bundle); reflexivity.
Defined.

(** * Further properties of the loader *)

(** ** The loop of the fallback *)

Section FallbackLoop.

Lemma date_eqb_eq a b : date_eqb a b = true <-> a = b.
Proof.
  destruct a as [ya ma da], b as [yb mb db]. unfold date_eqb. cbn [year month day].
  rewrite !andb_true_iff, !Z.eqb_eq. split.
  - intros [[-> ->] ->]. reflexivity.
  - intros H. inversion H. auto.
Qed.

Lemma date_eqb_refl d : date_eqb d d = true.
Proof. now apply date_eqb_eq. Qed.

Lemma date_eqb_neq a b : a <> b -> date_eqb a b = false.
Proof.
  intros H. destruct (date_eqb a b) eqn:E; [|reflexivity].
  apply date_eqb_eq in E. contradiction.
Qed.

(** Writing at date [d] leaves the rows of the other dates alone. *)
Lemma set_loc_other_rows (F : list cell -> list cell) d todo (rt : list (list cell)) :
  ~ In d todo -> List.length rt = List.length todo ->
  map (fun dr : date * list cell => if date_eqb (fst dr) d then F (snd dr) else snd dr)
      (combine todo rt) = rt.
Proof.
  revert rt. induction todo as [|d' todo IH]; intros [|r rt] Hd Hl;
    try discriminate; [reflexivity|].
  cbn. rewrite date_eqb_neq by (intros ->; apply Hd; now left).
  f_equal. apply IH; [intros H; apply Hd; now right | now inversion Hl].
Qed.

Lemma set_loc_at cols done d todo rd r rt c v i :
  position_of c cols = Some i ->
  List.length rd = List.length done -> List.length rt = List.length todo ->
  ~ In d done -> ~ In d todo ->
  set_loc (mkDataFrame (done ++ d :: todo) cols (rd ++ r :: rt)) d c v
  = mkDataFrame (done ++ d :: todo) cols (rd ++ replace_nth i v r :: rt).
Proof.
  intros Hc Hrd Hrt Hdone Htodo. unfold set_loc. cbn [index columns values].
  rewrite Hc. f_equal. revert rd Hrd Hdone.
  induction done as [|d' done IH]; intros [|r' rd] Hrd Hdone; try discriminate.
  - cbn. rewrite date_eqb_refl. f_equal. now apply set_loc_other_rows.
  - cbn. rewrite date_eqb_neq by (intros ->; apply Hdone; now left).
    f_equal. apply IH; [now inversion Hrd | intros H; apply Hdone; now right].
Qed.

Lemma cons_app_assoc {A} (l1 : list A) x l2 : l1 ++ x :: l2 = (l1 ++ [x]) ++ l2.
Proof. now rewrite <- app_assoc. Qed.

(** One turn of the loop writes the two cells of its date. *)
Lemma fill_day_at done d todo rd rt st :
  List.length rd = List.length done -> List.length rt = List.length todo ->
  ~ In d done -> ~ In d todo ->
  fill_day (mkDataFrame (done ++ d :: todo) ["TMAX"; "TMIN"]%string
                        (rd ++ [None; None] :: rt)) d st
  = (Ok (mkDataFrame (done ++ d :: todo) ["TMAX"; "TMIN"]%string
           (rd ++ [Some (tmax_base (dayofyear d)
                         + (0 + 5 * standard_normal st (position st)))%R;
                   Some (tmin_base (dayofyear d)
                         + (0 + 5 * standard_normal st (position st + 1)))%R]
               :: rt)),
     advance 2 st).
Proof.
  intros Hrd Hrt Hd1 Hd2. unfold fill_day, bind, normal, ret. cbv beta iota zeta.
  rewrite (set_loc_at _ done d todo rd _ _ "TMAX" _ 0%nat);
    [| reflexivity | assumption | assumption | assumption | assumption].
  rewrite (set_loc_at _ done d todo rd _ _ "TMIN" _ 1%nat);
    [| reflexivity | assumption | assumption | assumption | assumption].
  rewrite advance_advance. reflexivity.
Qed.

(** The loop fills the rows of the dates still to do, one after the other,
    and leaves the rows already written alone. *)
Lemma for_each_fill_rows todo : forall done rd st,
  NoDup (done ++ todo) ->
  List.length rd = List.length done ->
  for_each todo fill_day
    (mkDataFrame (done ++ todo) ["TMAX"; "TMIN"]%string
                 (rd ++ map (fun _ => [None; None]) todo)) st
  = (Ok (mkDataFrame (done ++ todo) ["TMAX"; "TMIN"]%string
                     (rd ++ synthetic_rows (standard_normal st) (position st) todo)),
     advance (2 * List.length todo) st).
Proof.
  induction todo as [|d todo IH]; intros done rd st Hnd Hrd.
  - cbn [for_each map synthetic_rows List.length Nat.mul]. unfold ret.
    now rewrite advance_0.
  - assert (Hd1 : ~ In d done).
    { intros H. apply NoDup_remove_2 in Hnd. apply Hnd. apply in_or_app. now left. }
    assert (Hd2 : ~ In d todo).
    { intros H. apply NoDup_remove_2 in Hnd. apply Hnd. apply in_or_app. now right. }
    cbn [for_each map synthetic_rows]. unfold bind.
    rewrite fill_day_at by (try assumption; now rewrite length_map).
    rewrite (cons_app_assoc done d todo).
    rewrite (cons_app_assoc rd _ (map _ todo)).
    rewrite (IH (done ++ [d]) _ (advance 2 st));
      [| now rewrite <- cons_app_assoc | rewrite !length_app; cbn; lia].
    rewrite advance_advance. cbn [position standard_normal advance].
    rewrite <- (cons_app_assoc rd). do 2 f_equal. cbn [List.length]. lia.
Qed.

End FallbackLoop.

(** ** The bundle of the fallback *)

Section FallbackBundle.

Lemma groupby_month_columns agg df c :
  In c (columns df) ->
  groupby_month agg df c = Ok (series_of (groupby_month agg df c)).
Proof.
  intros H. destruct (getitem_columns df c H) as [col E].
  now rewrite (groupby_month_Ok agg df c col E).
Qed.

Lemma load_fallback_bundle y st :
  year_supported y = true ->
  load_fallback y st
  = (Ok (synthetic_bundle y st), advance (4 * List.length (year_days y)) st).
Proof.
  intros Hy. unfold load_fallback, synthetic_bundle, loaded_bundle, bind, lift.
  rewrite (date_range_D_supported y Hy). cbv beta iota.
  set (dates := year_days y). set (n := List.length dates).
  pose proof (for_each_fill_rows dates [] [] st) as Et. cbn [app List.length] in Et.
  unfold empty_frame at 1. cbn [map]. rewrite Et by (apply year_days_NoDup || reflexivity).
  clear Et. cbv beta iota. fold n.
  unfold exponential_n, normal_n. cbv beta iota.
  rewrite !empty_frame_single.
  rewrite setitem_single;
    [| now rewrite length_map
     | unfold cells_of_R; now rewrite !length_map, length_seq ].
  cbv beta iota.
  rewrite setitem_single;
    [| now rewrite length_map
     | unfold cells_of_R, humidity_wave;
       rewrite !length_map, length_combine, !length_map, !length_seq;
       apply Nat.min_id ].
  cbv beta iota. rewrite getitem_single. cbv beta iota.
  rewrite setitem_single;
    [| unfold cells_of_R, humidity_wave;
       rewrite !length_map, length_combine, !length_map, !length_seq;
       apply Nat.min_id
     | unfold cells_of_R, humidity_wave;
       rewrite !length_map, length_combine, !length_map, !length_seq;
       apply Nat.min_id ].
  cbv beta iota.
  rewrite (groupby_month_columns nanmean _ "TMAX") by (cbn; auto).
  rewrite (groupby_month_columns nanmean _ "TMIN") by (cbn; auto).
  cbv beta iota.
  rewrite !groupby_month_single. cbv beta iota. unfold ret.
  cbn [series_of]. unfold advance.
  cbn [standard_exponential standard_normal position raw_integers].
  unfold synthetic_amounts, synthetic_humidity.
  f_equal; try reflexivity.
  f_equal; lia.
Qed.

End FallbackBundle.

(** ** What the fallback returns *)

Section FallbackTables.

Lemma synthetic_rows_length z p l :
  List.length (synthetic_rows z p l) = List.length l.
Proof. revert p. induction l as [|d l IH]; intros p; cbn; [reflexivity | now rewrite IH]. Qed.

Lemma synthetic_rows_nth z l : forall p i d,
  nth_error l i = Some d ->
  nth_error (synthetic_rows z p l) i
  = Some [Some (tmax_base (dayofyear d) + 5 * z (p + 2 * i)%nat)%R;
          Some (tmin_base (dayofyear d) + 5 * z (p + 2 * i + 1)%nat)%R].
Proof.
  induction l as [|d' l IH]; intros p [|i] d H; try discriminate.
  - cbn in H. inversion H; subst. cbn [synthetic_rows nth_error].
    rewrite !Rplus_0_l. cbn [Nat.mul]. now rewrite !Nat.add_0_r.
  - cbn [synthetic_rows nth_error]. cbn [nth_error] in H.
    rewrite (IH (p + 2)%nat i d H).
    replace (p + 2 + 2 * i)%nat with (p + 2 * S i)%nat by lia. reflexivity.
Qed.

Lemma load_data_synthetic y fs st e st1 :
  load_primary y fs st = (Raise e, st1) ->
  year_supported y = true ->
  load_data y fs st
  = (Ok (synthetic_bundle y st1), advance (4 * List.length (year_days y)) st1).
Proof.
  intros E Hy. rewrite (load_data_fallback _ _ _ _ _ E).
  now apply load_fallback_bundle.
Qed.

(** X1: when the primary load raises, in a year pandas can hold, the
    temperature table of the bundle has one row per day of the year, no cell
    left empty: on the [i]-th day TMAX is the seasonal base of that day plus
    five times the draw [2i] of the generator and TMIN its base plus five
    times the draw [2i+1], counted from the state in which the primary load
    left the generator. *)
Theorem fallback_fills_every_day y fs st e st1 :
  load_primary y fs st = (Raise e, st1) ->
  year_supported y = true ->
  exists b st',
    load_data y fs st = (Ok b, st') /\
    index (temp_pivot b) = year_days y /\
    columns (temp_pivot b) = ["TMAX"; "TMIN"]%string /\
    List.length (values (temp_pivot b)) = List.length (year_days y) /\
    forall i d,
      nth_error (year_days y) i = Some d ->
      nth_error (values (temp_pivot b)) i
      = Some [Some (tmax_base (dayofyear d)
                    + 5 * standard_normal st1 (position st1 + 2 * i)%nat)%R;
              Some (tmin_base (dayofyear d)
                    + 5 * standard_normal st1 (position st1 + 2 * i + 1)%nat)%R].
Proof.
  intros E Hy. eexists. eexists. split; [exact (load_data_synthetic _ _ _ _ _ E Hy)|].
  cbn [synthetic_bundle loaded_bundle temp_pivot index columns values].
  repeat split.
  - apply synthetic_rows_length.
  - intros i d H. now apply synthetic_rows_nth.
Qed.

Lemma fallback_fills_every_day_witness :
  exists b st',
    load_data 1999 no_files rng0 = (Ok b, st') /\
    index (temp_pivot b) = year_days 1999 /\
    columns (temp_pivot b) = ["TMAX"; "TMIN"]%string /\
    List.length (values (temp_pivot b)) = List.length (year_days 1999) /\
    forall i d,
      nth_error (year_days 1999) i = Some d ->
      nth_error (values (temp_pivot b)) i
      = Some [Some (tmax_base (dayofyear d)
                    + 5 * standard_normal rng0 (position rng0 + 2 * i)%nat)%R;
              Some (tmin_base (dayofyear d)
                    + 5 * standard_normal rng0 (position rng0 + 2 * i + 1)%nat)%R].
Proof.
  apply (fallback_fills_every_day 1999 no_files rng0 FileNotFoundError rng0);
    reflexivity.
Defined.

Lemma clip_range v : (10 <= Rmin 100 (Rmax 10 v) <= 100)%R.
Proof.
  split.
  - apply Rmin_glb; [lra | apply Rmax_l].
  - apply Rmin_l.
Qed.

(** X2: when the primary load raises, in a year pandas can hold, the
    humidity table of the bundle has one row per day of the year and every
    value lies between 10 and 100. *)
Theorem fallback_humidity_is_clipped y fs st e st1 :
  load_primary y fs st = (Raise e, st1) ->
  year_supported y = true ->
  exists b st',
    load_data y fs st = (Ok b, st') /\
    index (humidity_data b) = year_days y /\
    List.length (values (humidity_data b)) = List.length (year_days y) /\
    Forall (fun row => exists v, row = [Some v] /\ (10 <= v <= 100)%R)
           (values (humidity_data b)).
Proof.
  intros E Hy. eexists. eexists. split; [exact (load_data_synthetic _ _ _ _ _ E Hy)|].
  cbn [synthetic_bundle loaded_bundle humidity_data single_column index values].
  unfold synthetic_humidity, cells_of_R, humidity_wave. cbv zeta.
  repeat split.
  - rewrite !length_map, length_combine, !length_map, !length_seq. apply Nat.min_id.
  - apply Forall_forall. intros row Hrow.
    rewrite !map_map in Hrow. apply in_map_iff in Hrow as [wn [<- _]].
    cbn [clip option_map]. eexists. split; [reflexivity | apply clip_range].
Qed.

Lemma fallback_humidity_is_clipped_witness :
  exists b st',
    load_data 1999 no_files rng1 = (Ok b, st') /\
    index (humidity_data b) = year_days 1999 /\
    List.length (values (humidity_data b)) = List.length (year_days 1999) /\
    Forall (fun row => exists v, row = [Some v] /\ (10 <= v <= 100)%R)
           (values (humidity_data b)).
Proof.
  apply (fallback_humidity_is_clipped 1999 no_files rng1 FileNotFoundError rng1);
    reflexivity.
Defined.

End FallbackTables.

(** ** The monthly mappings of a full year *)

Section FullYear.

Lemma year_months y : sorted_unique Z.ltb (map month (year_days y)) = zrange 1 12.
Proof.
  unfold year_days, month_days.
  change (zrange 1 12) with [1; 2; 3; 4; 5; 6; 7; 8; 9; 10; 11; 12].
  cbn [flat_map days_in_month]. destruct (is_leap y); vm_compute; reflexivity.
Qed.

Lemma monthly_numbers idx (vals : list R) m :
  List.length vals = List.length idx ->
  existsb (fun d => month d =? m) idx = true ->
  numbers (month_cells idx (cells_of_R vals) m) <> [].
Proof.
  intros Hl Hm. rewrite month_cells_numbers.
  pose proof (month_present idx m Hm) as Hpos.
  rewrite <- (month_rows_count idx vals m Hl) in Hpos.
  destruct (filter (fun dv : date * R => month (fst dv) =? m) (combine idx vals));
    [cbn in Hpos; lia | discriminate].
Qed.

Lemma nanmean_number l : numbers l <> [] -> exists v, nanmean l = Some v.
Proof. unfold nanmean. destruct (numbers l); [contradiction | eauto]. Qed.

Lemma nansum_number l : numbers l <> [] -> exists v, nansum l = Some v.
Proof. unfold nansum. eauto. Qed.

(** An aggregation by month of a column of numbers over a table that has
    the twelve months: one number for each month, in order. *)
Lemma series_twelve agg df c vals :
  (forall l, numbers l <> [] -> exists v, agg l = Some v) ->
  getitem df c = Ok (cells_of_R vals) ->
  List.length vals = List.length (index df) ->
  sorted_unique Z.ltb (map month (index df)) = zrange 1 12 ->
  map fst (series_of (groupby_month agg df c)) = zrange 1 12 /\
  twelve_months (series_of (groupby_month agg df c)) = true.
Proof.
  intros Hagg Hcol Hlen Hkeys.
  rewrite (groupby_month_Ok agg df c _ Hcol), Hkeys. cbn [series_of]. split.
  - rewrite map_map. cbn [fst]. apply map_id.
  - unfold twelve_months. apply forallb_forall. intros m Hm.
    rewrite (series_find_keys (fun k => agg (month_cells (index df) (cells_of_R vals) k))).
    assert (Hk : existsb (Z.eqb m) (zrange 1 12) = true).
    { apply existsb_exists. exists m. split; [assumption | apply Z.eqb_refl]. }
    rewrite Hk. rewrite <- Hkeys, month_keys in Hk.
    destruct (Hagg _ (monthly_numbers _ vals m Hlen Hk)) as [v ->]. reflexivity.
Qed.

Lemma series_mul_twelve s k :
  map fst s = zrange 1 12 /\ twelve_months s = true ->
  map fst (series_mul s k) = zrange 1 12 /\ twelve_months (series_mul s k) = true.
Proof.
  intros [Hk Ht]. split.
  - unfold series_mul. rewrite map_map. cbn [fst]. exact Hk.
  - unfold twelve_months in *. rewrite forallb_forall in *. intros m Hm.
    specialize (Ht m Hm). rewrite series_find_mul.
    destruct (series_find s m) as [[v|]|]; try discriminate. reflexivity.
Qed.

Lemma synthetic_rows_column z l : forall p (i : nat),
  (i < 2)%nat ->
  exists vals,
    map (fun row => nth i row None) (synthetic_rows z p l) = cells_of_R vals /\
    List.length vals = List.length l.
Proof.
  induction l as [|d l IH]; intros p i Hi.
  - exists []. split; reflexivity.
  - destruct (IH (p + 2)%nat i Hi) as (vals & E & Hl).
    cbn [synthetic_rows map]. rewrite E.
    destruct i as [|[|i]]; [| |lia]; cbn [nth];
      eexists (_ :: vals); split; try reflexivity; cbn; now rewrite Hl.
Qed.

Lemma synthetic_getitem z p l c i :
  position_of c ["TMAX"; "TMIN"]%string = Some i -> (i < 2)%nat ->
  exists vals,
    getitem (mkDataFrame l ["TMAX"; "TMIN"]%string (synthetic_rows z p l)) c
      = Ok (cells_of_R vals) /\
    List.length vals = List.length l.
Proof.
  intros Hc Hi. unfold getitem. cbn [columns values]. rewrite Hc.
  destruct (synthetic_rows_column z l p i Hi) as (vals & E & Hl).
  rewrite E. eauto.
Qed.

Lemma synthetic_normals_complete y st :
  twelve_months (monthly_tmax_normal (synthetic_bundle y st)) = true /\
  twelve_months (monthly_tmin_normal (synthetic_bundle y st)) = true.
Proof.
  cbn [synthetic_bundle loaded_bundle monthly_tmax_normal monthly_tmin_normal].
  destruct (synthetic_getitem (standard_normal st) (position st) (year_days y)
              "TMAX" 0 eq_refl) as (vmax & Emax & Lmax); [lia|].
  destruct (synthetic_getitem (standard_normal st) (position st) (year_days y)
              "TMIN" 1 eq_refl) as (vmin & Emin & Lmin); [lia|].
  split.
  - apply (series_twelve nanmean _ "TMAX" vmax nanmean_number Emax Lmax), year_months.
  - apply (series_twelve nanmean _ "TMIN" vmin nanmean_number Emin Lmin), year_months.
Qed.

(** X3: when the primary load raises, in a year pandas can hold, each of the
    four monthly mappings of the bundle has the twelve months 1 to 12 as its
    keys, in order, and holds a number for each of them. *)
Theorem fallback_months_are_complete y fs st e st1 :
  load_primary y fs st = (Raise e, st1) ->
  year_supported y = true ->
  exists b st',
    load_data y fs st = (Ok b, st') /\
    Forall (fun s => map fst s = zrange 1 12 /\ twelve_months s = true)
           [monthly_tmax_normal b; monthly_tmin_normal b;
            monthly_precip_normal b; monthly_precip_actual b].
Proof.
  intros E Hy. eexists. eexists. split; [exact (load_data_synthetic _ _ _ _ _ E Hy)|].
  cbn [synthetic_bundle loaded_bundle monthly_tmax_normal monthly_tmin_normal
       monthly_precip_normal monthly_precip_actual].
  destruct (synthetic_getitem (standard_normal st1) (position st1) (year_days y)
              "TMAX" 0 eq_refl) as (vmax & Emax & Lmax); [lia|].
  destruct (synthetic_getitem (standard_normal st1) (position st1) (year_days y)
              "TMIN" 1 eq_refl) as (vmin & Emin & Lmin); [lia|].
  assert (Lp : List.length (synthetic_amounts y st1) = List.length (year_days y))
    by (unfold synthetic_amounts; now rewrite length_map, length_seq).
  repeat apply Forall_cons; [ | | | | apply Forall_nil].
  - apply (series_twelve nanmean _ "TMAX" vmax nanmean_number Emax Lmax), year_months.
  - apply (series_twelve nanmean _ "TMIN" vmin nanmean_number Emin Lmin), year_months.
  - apply series_mul_twelve.
    apply (series_twelve nanmean _ "precip" _ nanmean_number (getitem_single _ _ _) Lp),
      year_months.
  - apply (series_twelve nansum _ "precip" _ nansum_number (getitem_single _ _ _) Lp),
      year_months.
Qed.

Lemma fallback_months_are_complete_witness :
  exists b st',
    load_data 1999 no_files rng0 = (Ok b, st') /\
    Forall (fun s => map fst s = zrange 1 12 /\ twelve_months s = true)
           [monthly_tmax_normal b; monthly_tmin_normal b;
            monthly_precip_normal b; monthly_precip_actual b].
Proof.
  apply (fallback_months_are_complete 1999 no_files rng0 FileNotFoundError rng0);
    reflexivity.
Defined.

End FullYear.

(** * Further properties of the renderer *)

Section RendererOutcome.

Lemma normal_lines_Ok y b :
  year_supported y = true ->
  twelve_months (monthly_tmax_normal b) = true ->
  twelve_months (monthly_tmin_normal b) = true ->
  exists lines, normal_lines y b = Ok lines.
Proof.
  intros Hy Hmax Hmin. unfold normal_lines, twelve_months in *.
  rewrite (date_range_MS_supported y Hy), (date_range_D_supported y Hy).
  cbn [rbind].
  rewrite (comprehension_normals y _ _ Hmax), (comprehension_normals y _ _ Hmin).
  cbn [rbind]. unfold np_interp.
  rewrite !length_map, zrange_length. cbn [Nat.eqb negb rbind]. eauto.
Qed.

Lemma comprehension_raises {A B} (f : A -> result Exception B) l x e :
  In x l -> f x = Raise e -> exists e', comprehension f l = Raise e'.
Proof.
  induction l as [|a l IH]; intros Hin Hx; [contradiction|].
  cbn [comprehension]. destruct Hin as [->|Hin].
  - rewrite Hx. cbn. eauto.
  - destruct (f a) as [v|e0]; cbn; [|eauto].
    destruct (IH Hin Hx) as [e' ->]. cbn. eauto.
Qed.

Lemma date_range_MS_Ok y months :
  date_range_MS y = Ok months -> months = map (fun m => mkdate y m 1) (zrange 1 12).
Proof.
  unfold date_range_MS. intros H.
  apply rbind_Ok in H as (t1 & _ & H). apply rbind_Ok in H as (t2 & _ & H).
  now inversion H.
Qed.

Lemma missing_month_raises df c s m :
  groupby_month nanmean df c = Ok s ->
  has_month df m = false ->
  series_getitem s m = Raise (KeyError "month").
Proof.
  unfold groupby_month, has_month. intros H Hm.
  apply rbind_Ok in H as (col & _ & H). inversion H as [Hs]. clear H.
  unfold series_getitem.
  rewrite (series_find_keys (fun k => nanmean (month_cells (index df) col k))).
  now rewrite month_keys, Hm.
Qed.

Lemma normal_lines_missing_month y b m :
  groupby_month nanmean (temp_pivot b) "TMAX" = Ok (monthly_tmax_normal b) ->
  1 <= m <= 12 ->
  has_month (temp_pivot b) m = false ->
  exists e, normal_lines y b = Raise e.
Proof.
  intros Hs Hm Hno. unfold normal_lines.
  destruct (date_range_MS y) as [months|e0] eqn:E; cbn [rbind]; [|eauto].
  apply date_range_MS_Ok in E. subst months.
  destruct (comprehension_raises
              (fun d => series_getitem (monthly_tmax_normal b) (month d))
              (map (fun k => mkdate y k 1) (zrange 1 12)) (mkdate y m 1)
              (KeyError "month")) as [e' ->].
  - apply in_map_iff. exists m. split; [reflexivity|]. apply zrange_In. lia.
  - cbn [month]. exact (missing_month_raises _ _ _ _ Hs Hno).
  - cbn. eauto.
Qed.

(** X4: when the primary load raises, in a year from 1678 to 2261, nothing
    that the renderer computes itself raises: the synthetic bundle has the
    twelve normals that lines 142-143 look up, and the interpolation of
    lines 146-151 returns.  The renderer then returns [True] exactly when
    the drawing calls on the synthetic bundle return, [False] as soon as one
    of them raises, and the generator has advanced by four draws per day of
    the year in both cases. *)
Theorem renderer_on_the_fallback_follows_the_drawing be y fs st e st1 :
  load_primary y fs st = (Raise e, st1) ->
  year_supported y = true ->
  exists high low,
    normal_lines y (synthetic_bundle y st1) = Ok (high, low) /\
    create_tufte_visualization be y fs st
    = (Ok (is_ok (begin_figure be (synthetic_bundle y st1)) &&
           is_ok (finish_figure be y (synthetic_bundle y st1) high low)),
       advance (4 * List.length (year_days y)) st1).
Proof.
  intros E Hy.
  destruct (synthetic_normals_complete y st1) as (Hmax & Hmin).
  destruct (normal_lines_Ok y (synthetic_bundle y st1) Hy Hmax Hmin) as [[high low] El].
  exists high, low. split; [exact El|].
  unfold create_tufte_visualization, try_except, render, bind, lift, ret.
  rewrite (load_data_synthetic _ _ _ _ _ E Hy).
  destruct (begin_figure be (synthetic_bundle y st1)) as [u|e1]; cbn [is_ok andb];
    [|reflexivity].
  rewrite El. cbn [fst snd].
  destruct (finish_figure be y (synthetic_bundle y st1) high low); reflexivity.
Qed.

Lemma renderer_on_the_fallback_follows_the_drawing_witness :
  load_primary 1999 no_files rng0 = (Raise FileNotFoundError, rng0) /\
  year_supported 1999 = true /\
  exists high low,
    normal_lines 1999 (synthetic_bundle 1999 rng0) = Ok (high, low) /\
    create_tufte_visualization refusing_backend 1999 no_files rng0
    = (Ok false, advance (4 * List.length (year_days 1999)) rng0).
Proof.
  split; [reflexivity|]. split; [reflexivity|].
  destruct (renderer_on_the_fallback_follows_the_drawing refusing_backend 1999 no_files
              rng0 FileNotFoundError rng0 eq_refl eq_refl) as (high & low & El & Ec).
  exists high, low. split; [exact El | exact Ec].
Defined.

(** X5: when the primary load succeeds but one of the twelve months does not
    occur among the dates of the temperature table, the renderer returns
    [False], whatever the drawing calls do: the lookup of that month's normal
    at line 142 raises [KeyError]. *)
Theorem renderer_fails_on_a_missing_month be y fs st b st1 m :
  load_primary y fs st = (Ok b, st1) ->
  1 <= m <= 12 ->
  has_month (temp_pivot b) m = false ->
  create_tufte_visualization be y fs st = (Ok false, st1).
Proof.
  intros E Hm Hno.
  pose proof (load_primary_Ok _ _ _ _ _ E) as ((Hmax & _) & _).
  destruct (normal_lines_missing_month y b m Hmax Hm Hno) as [e El].
  unfold create_tufte_visualization, try_except, render, bind, lift, ret.
  rewrite (load_data_primary _ _ _ _ _ E).
  destruct (begin_figure be b); [|reflexivity].
  rewrite El. reflexivity.
Qed.

Lemma renderer_fails_on_a_missing_month_witness :
  exists b,
    load_primary 2023 one_day_files rng0 = (Ok b, rng0) /\
    1 <= 2 <= 12 /\
    has_month (temp_pivot b) 2 = false /\
    create_tufte_visualization good_backend 2023 one_day_files rng0 = (Ok false, rng0).
Proof.
  eexists. split; [vm_compute; reflexivity|]. split; [lia|]. split; [reflexivity|].
  eapply (renderer_fails_on_a_missing_month good_backend 2023 one_day_files rng0 _ rng0 2).
  - vm_compute. reflexivity.
  - lia.
  - reflexivity.
Defined.

End RendererOutcome.

(** * Further properties of the tables *)

(** ** Sorted labels *)

Section SortedLabels.

Context {A : Type} (ltb : A -> A -> bool).

Lemma insert_sorted_increasing x l :
  increasing ltb l = true -> increasing ltb (insert_sorted ltb x l) = true.
Proof.
  induction l as [|y l IH]; intros H; [reflexivity|].
  cbn [insert_sorted]. destruct (ltb x y) eqn:Exy.
  - cbn [increasing]. now rewrite Exy.
  - destruct (ltb y x) eqn:Eyx; [|assumption].
    destruct l as [|z l].
    + cbn. now rewrite Eyx.
    + cbn [increasing] in H. apply andb_prop in H as [Hyz Hl].
      specialize (IH Hl). cbn [insert_sorted] in *.
      destruct (ltb x z); [|destruct (ltb z x)].
      * cbn [increasing] in *. now rewrite Eyx, IH.
      * cbn [increasing] in *. now rewrite Hyz, IH.
      * cbn [increasing]. now rewrite Hyz, Hl.
Qed.

Lemma sorted_unique_increasing l : increasing ltb (sorted_unique ltb l) = true.
Proof.
  unfold sorted_unique. induction l as [|x l IH]; [reflexivity|].
  cbn [fold_right]. now apply insert_sorted_increasing.
Qed.

Hypothesis ltb_irrefl : forall x, ltb x x = false.
Hypothesis ltb_trans : forall x y z, ltb x y = true -> ltb y z = true -> ltb x z = true.

Lemma increasing_head x l :
  increasing ltb (x :: l) = true -> forall y, In y l -> ltb x y = true.
Proof.
  revert x. induction l as [|z l IH]; intros x H y Hy; [contradiction|].
  cbn [increasing] in H. apply andb_prop in H as [Hxz Hl].
  destruct Hy as [->|Hy]; [assumption|].
  apply (ltb_trans x z y Hxz). now apply IH.
Qed.

Lemma increasing_NoDup l : increasing ltb l = true -> NoDup l.
Proof.
  induction l as [|x l IH]; intros H; constructor.
  - intros Hin. pose proof (increasing_head x l H x Hin) as Hxx.
    now rewrite ltb_irrefl in Hxx.
  - apply IH. destruct l as [|y l]; [reflexivity|].
    cbn [increasing] in H. now apply andb_prop in H as [_ H].
Qed.

End SortedLabels.

Lemma date_ltb_lt a b :
  date_ltb a b = true <->
  year a < year b \/
  (year a = year b /\ (month a < month b \/ (month a = month b /\ day a < day b))).
Proof.
  unfold date_ltb.
  repeat (rewrite orb_true_iff || rewrite andb_true_iff).
  rewrite !Z.ltb_lt, !Z.eqb_eq. reflexivity.
Qed.

Lemma date_ltb_irrefl d : date_ltb d d = false.
Proof.
  destruct (date_ltb d d) eqn:E; [|reflexivity]. apply date_ltb_lt in E. lia.
Qed.

Lemma date_ltb_trans a b c :
  date_ltb a b = true -> date_ltb b c = true -> date_ltb a c = true.
Proof. rewrite !date_ltb_lt. lia. Qed.

(** ** The pivot *)

Section Pivot.

Lemma position_of_In c cols :
  In c cols -> exists i, position_of c cols = Some i /\ nth_error cols i = Some c.
Proof.
  induction cols as [|c' cols IH]; intros H; [contradiction|].
  cbn [position_of]. destruct (String.eqb c c') eqn:E.
  - apply String.eqb_eq in E. subst. now exists 0%nat.
  - destruct H as [->|H]; [now rewrite String.eqb_refl in E|].
    destruct (IH H) as (i & -> & Hn). now exists (S i).
Qed.

Lemma position_of_Some c cols i :
  position_of c cols = Some i -> nth_error cols i = Some c.
Proof.
  revert i. induction cols as [|c' cols IH]; intros i H; [discriminate|].
  cbn [position_of] in H. destruct (String.eqb c c') eqn:E.
  - inversion H. apply String.eqb_eq in E. now subst.
  - destruct (position_of c cols) as [j|]; [|discriminate].
    inversion H. cbn. now apply IH.
Qed.

Lemma nth_map_cell {B} (f : B -> cell) l i x :
  nth_error l i = Some x -> nth i (map f l) None = f x.
Proof.
  revert i. induction l as [|y l IH]; intros [|i] H; try discriminate.
  - now inversion H.
  - cbn. now apply IH.
Qed.

Lemma find_row (g : date -> list cell) idx d :
  In d idx ->
  find (fun dr : date * list cell => date_eqb (fst dr) d) (combine idx (map g idx))
  = Some (d, g d).
Proof.
  induction idx as [|d' idx IH]; intros H; [contradiction|].
  cbn [map combine find fst]. destruct (date_eqb d' d) eqn:E.
  - apply date_eqb_eq in E. now subst.
  - destruct H as [->|H]; [now rewrite date_eqb_refl in E | now apply IH].
Qed.

Lemma find_row_Some (g : date -> list cell) idx d dr :
  find (fun dr : date * list cell => date_eqb (fst dr) d) (combine idx (map g idx))
    = Some dr ->
  dr = (d, g d) /\ In d idx.
Proof.
  induction idx as [|d' idx IH]; [discriminate|].
  cbn [map combine find fst]. destruct (date_eqb d' d) eqn:E.
  - apply date_eqb_eq in E. subst. intros H. inversion H. split; [reflexivity | now left].
  - intros H. destruct (IH H). split; [assumption | now right].
Qed.

Lemma temp_key_eqb_refl k : temp_key_eqb k k = true.
Proof. unfold temp_key_eqb. now rewrite date_eqb_refl, String.eqb_refl. Qed.

Lemma temp_key_eqb_eq a b : temp_key_eqb a b = true <-> a = b.
Proof.
  destruct a as [da ka], b as [db kb]. unfold temp_key_eqb. cbn [fst snd].
  rewrite andb_true_iff, date_eqb_eq, String.eqb_eq. split.
  - now intros [-> ->].
  - intros H. now inversion H.
Qed.

(** Without a repeated date and kind, the row found for the key of a row is
    that row. *)
Lemma find_key rows r :
  has_duplicates temp_key_eqb (map temp_key rows) = false ->
  In r rows ->
  find (fun r' => temp_key_eqb (temp_key r') (temp_key r)) rows = Some r.
Proof.
  induction rows as [|a rows IH]; intros Hdup Hin; [contradiction|].
  cbn [map has_duplicates] in Hdup. apply orb_false_iff in Hdup as [Ha Hdup].
  cbn [find]. destruct (temp_key_eqb (temp_key a) (temp_key r)) eqn:E.
  - destruct Hin as [->|Hin]; [reflexivity|]. exfalso.
    assert (Hex : existsb (temp_key_eqb (temp_key a)) (map temp_key rows) = true).
    { apply existsb_exists. exists (temp_key r). split; [|assumption].
      apply in_map_iff. now exists r. }
    now rewrite Hex in Ha.
  - destruct Hin as [->|Hin]; [now rewrite temp_key_eqb_refl in E | now apply IH].
Qed.

End Pivot.

(** X6: the table that the pivot returns has one row per distinct date of
    the rows, in increasing order of date, and one column per distinct kind,
    in increasing order of kind; it is rectangular. *)
Theorem pivot_sorts_its_labels rows df :
  pivot rows = Ok df ->
  increasing date_ltb (index df) = true /\
  NoDup (index df) /\
  (forall d, In d (index df) <-> exists r, In r rows /\ t_date r = d) /\
  increasing String.ltb (columns df) = true /\
  (forall k, In k (columns df) <-> exists r, In r rows /\ t_type r = k) /\
  List.length (values df) = List.length (index df) /\
  Forall (fun row => List.length row = List.length (columns df)) (values df).
Proof.
  intros H. apply pivot_Ok in H as [-> _]. cbn [pivoted index columns values].
  split; [apply sorted_unique_increasing|].
  split; [apply (increasing_NoDup date_ltb date_ltb_irrefl date_ltb_trans),
            sorted_unique_increasing|].
  split.
  { intros d. rewrite (sorted_unique_In date_ltb date_ltb_total), in_map_iff.
    split; intros [r [H1 H2]]; exists r; auto. }
  split; [apply sorted_unique_increasing|].
  split.
  { intros k. rewrite (sorted_unique_In String.ltb String_ltb_total), in_map_iff.
    split; intros [r [H1 H2]]; exists r; auto. }
  split; [now rewrite length_map|].
  apply Forall_forall. intros row Hrow.
  apply in_map_iff in Hrow as [d [<- _]]. now rewrite length_map.
Qed.

Lemma pivot_sorts_its_labels_witness :
  exists df,
    pivot (rows_of (temperatures one_day_files 2023)) = Ok df /\
    increasing date_ltb (index df) = true /\
    NoDup (index df) /\
    (forall d, In d (index df) <->
               exists r, In r (rows_of (temperatures one_day_files 2023)) /\ t_date r = d) /\
    increasing String.ltb (columns df) = true /\
    (forall k, In k (columns df) <->
               exists r, In r (rows_of (temperatures one_day_files 2023)) /\ t_type r = k) /\
    List.length (values df) = List.length (index df) /\
    Forall (fun row => List.length row = List.length (columns df)) (values df).
Proof.
  eexists. split; [reflexivity|].
  apply (pivot_sorts_its_labels (rows_of (temperatures one_day_files 2023))).
  reflexivity.
Defined.

(** The cell of the pivoted table at the date and kind of a row. *)
Lemma pivoted_loc rows r :
  has_duplicates temp_key_eqb (map temp_key rows) = false ->
  In r rows ->
  loc (pivoted rows) (t_date r) (t_type r) = Ok (Some (t_temp r)).
Proof.
  intros Hdup Hr. unfold loc. cbn [pivoted index columns values].
  destruct (position_of_In (t_type r) (sorted_unique String.ltb (map t_type rows)))
    as (i & -> & Hi).
  { apply (sorted_unique_In String.ltb String_ltb_total), in_map_iff. now exists r. }
  rewrite find_row.
  2:{ apply (sorted_unique_In date_ltb date_ltb_total), in_map_iff. now exists r. }
  cbn [snd]. rewrite (nth_map_cell _ _ _ _ Hi). unfold pivot_cell.
  change (t_date r, t_type r) with (temp_key r).
  now rewrite (find_key rows r Hdup Hr).
Qed.

(** X7: the table that the pivot returns holds the temperatures of the
    rows and nothing else: the cell at the date and kind of a row is the
    temperature of that row, and a number found at a date and kind is the
    temperature of a row of that date and kind. *)
Theorem pivot_keeps_every_temperature rows df :
  pivot rows = Ok df ->
  (forall r, In r rows -> loc df (t_date r) (t_type r) = Ok (Some (t_temp r))) /\
  (forall d k v, loc df d k = Ok (Some v) ->
                 exists r, In r rows /\ t_date r = d /\ t_type r = k /\ t_temp r = v).
Proof.
  intros H. apply pivot_Ok in H as [-> Hdup].
  split; [intros r Hr; now apply pivoted_loc|].
  unfold loc. cbn [pivoted index columns values].
  - intros d k v.
    destruct (position_of k (sorted_unique String.ltb (map t_type rows)))
      as [i|] eqn:Ek; [|discriminate].
    apply position_of_Some in Ek.
    destruct (find _ (combine _ _)) as [dr|] eqn:Ef; [|discriminate].
    apply find_row_Some in Ef as [-> _]. cbn [snd].
    rewrite (nth_map_cell _ _ _ _ Ek). unfold pivot_cell. intros H.
    destruct (find _ rows) as [r|] eqn:Er; [|discriminate].
    apply find_some in Er as [Hin Hkey]. apply temp_key_eqb_eq in Hkey.
    unfold temp_key in Hkey. inversion Hkey. inversion H. subst. now exists r.
Qed.

Lemma pivot_keeps_every_temperature_witness :
  exists df,
    pivot (rows_of (temperatures one_day_files 2023)) = Ok df /\
    (forall r, In r (rows_of (temperatures one_day_files 2023)) ->
               loc df (t_date r) (t_type r) = Ok (Some (t_temp r))) /\
    (forall d k v, loc df d k = Ok (Some v) ->
                   exists r, In r (rows_of (temperatures one_day_files 2023)) /\
                             t_date r = d /\ t_type r = k /\ t_temp r = v).
Proof.
  eexists. split; [reflexivity|].
  apply (pivot_keeps_every_temperature (rows_of (temperatures one_day_files 2023))).
  reflexivity.
Defined.

(** * Further properties of the monthly precipitation *)

Section PrecipitationBars.

Open Scope R_scope.

(** The two precipitation mappings of a returned bundle, month by month. *)
Lemma precipitation_entries y fs st b st' :
  load_data y fs st = (Ok b, st') ->
  exists idx vals,
    precip_data b = single_column idx "precip" (cells_of_R vals) /\
    List.length vals = List.length idx /\
    monthly_precip_actual b
    = map (fun m => (m, nansum (month_cells idx (cells_of_R vals) m)))
          (sorted_unique Z.ltb (map month idx)) /\
    monthly_precip_normal b
    = series_mul (map (fun m => (m, nanmean (month_cells idx (cells_of_R vals) m)))
                      (sorted_unique Z.ltb (map month idx))) 30.
Proof.
  intros H. apply load_data_coherent in H.
  destruct H as (_ & _ & (s & Hs & Hn) & Hact & idx & vals & Hp & Hlen).
  exists idx, vals. rewrite Hp in Hs, Hact.
  rewrite groupby_month_single in Hs, Hact.
  inversion Hs. inversion Hact. subst. auto.
Qed.

(** The two bars of a month that occurs in a column of numbers. *)
Lemma bars_of_month idx (vals : list R) m :
  List.length vals = List.length idx ->
  existsb (fun d => (month d =? m)%Z) idx = true ->
  monthly_value
    (series_mul (map (fun k => (k, nanmean (month_cells idx (cells_of_R vals) k)))
                     (sorted_unique Z.ltb (map month idx))) 30) m
  * INR (List.length (filter (fun d => (month d =? m)%Z) idx))
  = 30 * monthly_value
           (map (fun k => (k, nansum (month_cells idx (cells_of_R vals) k)))
                (sorted_unique Z.ltb (map month idx))) m.
Proof.
  intros Hlen Hm. unfold monthly_value.
  rewrite series_find_mul.
  rewrite (series_find_keys (fun k => nanmean (month_cells idx (cells_of_R vals) k))).
  rewrite (series_find_keys (fun k => nansum (month_cells idx (cells_of_R vals) k))).
  rewrite month_keys, Hm.
  unfold nanmean, nansum. rewrite month_cells_numbers.
  pose proof (month_present idx m Hm) as Hpos.
  rewrite <- (month_rows_count idx vals m Hlen) in *.
  rewrite <- (length_map snd) in *.
  destruct (map snd (filter (fun dv : date * R => (month (fst dv) =? m)%Z)
                            (combine idx vals)))
    as [|v rest]; [cbn in Hpos; lia|].
  cbn [option_map].
  assert (Hne : INR (List.length (v :: rest)) <> 0)
    by (apply not_0_INR; cbn; lia).
  field. exact Hne.
Qed.

(** X8: on either path, for every month that occurs in the returned
    precipitation table, the monthly normal times the number of rows of that
    month is 30 times the monthly actual: the "normal" bar is the actual bar
    rescaled to 30 days. *)
Theorem normal_bar_is_the_actual_bar_rescaled y fs st b st' m :
  load_data y fs st = (Ok b, st') ->
  has_month (precip_data b) m = true ->
  monthly_value (monthly_precip_normal b) m
    * INR (List.length (rows_of_month (precip_data b) m))
  = 30 * monthly_value (monthly_precip_actual b) m /\
  (0 < List.length (rows_of_month (precip_data b) m))%nat.
Proof.
  intros H. apply precipitation_entries in H.
  destruct H as (idx & vals & Hp & Hlen & Hact & Hn).
  rewrite Hp, Hact, Hn. clear Hp Hact Hn.
  unfold has_month. cbn [index single_column]. intros Hm.
  rewrite rows_of_month_length, (month_rows_count idx vals m Hlen).
  split; [now apply bars_of_month | now apply month_present].
Qed.

Lemma normal_bar_is_the_actual_bar_rescaled_witness :
  exists b st',
    load_data 2023 one_day_files rng0 = (Ok b, st') /\
    has_month (precip_data b) 1 = true /\
    monthly_value (monthly_precip_normal b) 1
      * INR (List.length (rows_of_month (precip_data b) 1))
    = 30 * monthly_value (monthly_precip_actual b) 1 /\
    (0 < List.length (rows_of_month (precip_data b) 1))%nat.
Proof.
  eexists. eexists. split; [vm_compute; reflexivity|]. split; [reflexivity|].
  eapply (normal_bar_is_the_actual_bar_rescaled 2023 one_day_files rng0).
  - vm_compute. reflexivity.
  - reflexivity.
Defined.

Lemma month_day_count y m :
  (1 <= m <= 12)%Z ->
  List.length (filter (fun d => (month d =? m)%Z) (year_days y))
  = Z.to_nat (days_in_month y m).
Proof.
  intros Hm.
  assert (H : (m = 1 \/ m = 2 \/ m = 3 \/ m = 4 \/ m = 5 \/ m = 6 \/ m = 7 \/
               m = 8 \/ m = 9 \/ m = 10 \/ m = 11 \/ m = 12)%Z) by lia.
  unfold year_days, month_days.
  change (zrange 1 12) with [1; 2; 3; 4; 5; 6; 7; 8; 9; 10; 11; 12]%Z.
  cbn [flat_map].
  repeat (destruct H as [H|H]); subst m; cbn [days_in_month];
    destruct (is_leap y); vm_compute; reflexivity.
Qed.

Lemma year_has_month y m :
  (1 <= m <= 12)%Z -> existsb (fun d => (month d =? m)%Z) (year_days y) = true.
Proof.
  intros Hm. apply existsb_exists. exists (mkdate y m 1). split.
  - apply year_days_In. split; [reflexivity|].
    unfold is_calendar_date. cbn [year month day].
    pose proof (month_day_count y m Hm) as Hc.
    assert (Hd : (1 <= days_in_month y m)%Z).
    { unfold days_in_month.
      repeat match goal with
             | |- context [match ?x with _ => _ end] => destruct x
             end; lia. }
    repeat (apply andb_true_intro; split); apply Z.leb_le; lia.
  - cbn [month]. apply Z.eqb_refl.
Qed.

(** X9: when the primary load raises, in a year pandas can hold, the
    precipitation table has, for each month, as many rows as the month has
    days, so the monthly normal is the monthly actual times 30 over the
    number of days of the month: the two bars are equal wherever the month
    has 30 days. *)
Theorem fallback_bars_differ_by_the_length_of_the_month y fs st e st1 m :
  load_primary y fs st = (Raise e, st1) ->
  year_supported y = true ->
  (1 <= m <= 12)%Z ->
  exists b st',
    load_data y fs st = (Ok b, st') /\
    List.length (rows_of_month (precip_data b) m) = Z.to_nat (days_in_month y m) /\
    monthly_value (monthly_precip_normal b) m * IZR (days_in_month y m)
    = 30 * monthly_value (monthly_precip_actual b) m /\
    (days_in_month y m = 30%Z ->
     monthly_value (monthly_precip_normal b) m
     = monthly_value (monthly_precip_actual b) m).
Proof.
  intros E Hy Hm. eexists. eexists.
  split; [exact (load_data_synthetic _ _ _ _ _ E Hy)|].
  cbn [synthetic_bundle loaded_bundle precip_data monthly_precip_normal
       monthly_precip_actual].
  rewrite !groupby_month_single. cbn [series_of].
  assert (Lp : List.length (synthetic_amounts y st1) = List.length (year_days y))
    by (unfold synthetic_amounts; now rewrite length_map, length_seq).
  pose proof (bars_of_month (year_days y) (synthetic_amounts y st1) m Lp
                (year_has_month y m Hm)) as Hbars.
  rewrite month_day_count in Hbars by assumption.
  rewrite INR_IZR_INZ, Z2Nat.id in Hbars by apply days_in_month_nonneg.
  split.
  { rewrite rows_of_month_length, (month_rows_count _ _ m Lp).
    now apply month_day_count. }
  split; [exact Hbars|].
  intros H30. rewrite H30 in Hbars. lra.
Qed.

Lemma fallback_bars_differ_by_the_length_of_the_month_witness :
  exists b st',
    load_data 1999 no_files rng1 = (Ok b, st') /\
    List.length (rows_of_month (precip_data b) 4) = Z.to_nat (days_in_month 1999 4) /\
    monthly_value (monthly_precip_normal b) 4 * IZR (days_in_month 1999 4)
    = 30 * monthly_value (monthly_precip_actual b) 4 /\
    (days_in_month 1999 4 = 30%Z ->
     monthly_value (monthly_precip_normal b) 4
     = monthly_value (monthly_precip_actual b) 4).
Proof.
  apply (fallback_bars_differ_by_the_length_of_the_month
           1999 no_files rng1 FileNotFoundError rng1 4); [reflexivity | reflexivity | lia].
Defined.

End PrecipitationBars.

(** ** The total of the year *)

Section YearTotal.

Open Scope R_scope.

Lemma Rsum_map_plus {A} (f g : A -> R) l :
  Rsum (map (fun k => f k + g k) l) = Rsum (map f l) + Rsum (map g l).
Proof.
  unfold Rsum. induction l as [|k l IH]; cbn; [lra|]. rewrite IH. lra.
Qed.

Lemma Rsum_one_key (v : R) m keys :
  NoDup keys -> In m keys ->
  Rsum (map (fun k => if (m =? k)%Z then v else 0) keys) = v.
Proof.
  unfold Rsum. induction 1 as [|k keys Hk Hnd IH]; intros Hin; [contradiction|].
  cbn [map fold_right]. destruct (Z.eqb_spec m k) as [->|Hne].
  - assert (E : fold_right Rplus 0 (map (fun k0 => if (k =? k0)%Z then v else 0) keys) = 0).
    { clear IH Hin Hnd. induction keys as [|k' keys IH]; [reflexivity|].
      cbn [map fold_right]. destruct (Z.eqb_spec k k') as [->|_].
      - exfalso. apply Hk. now left.
      - rewrite IH; [lra|]. intros H. apply Hk. now right. }
    rewrite E. lra.
  - destruct Hin as [->|Hin]; [contradiction|]. rewrite (IH Hin). lra.
Qed.

(** The sums of the months add up to the sum of all the rows. *)
Lemma Rsum_by_month keys (l : list (date * R)) :
  NoDup keys ->
  (forall dv, In dv l -> In (month (fst dv)) keys) ->
  Rsum (map (fun k => Rsum (map snd (filter (fun dv : date * R => (month (fst dv) =? k)%Z) l)))
            keys)
  = Rsum (map snd l).
Proof.
  intros Hnd. induction l as [|[d v] l IH]; intros Hin.
  - cbn. unfold Rsum. clear Hnd Hin.
    induction keys as [|k keys IHk]; cbn; [reflexivity|]. rewrite IHk. lra.
  - rewrite (map_ext _ (fun k => (if (month d =? k)%Z then v else 0)
       + Rsum (map snd (filter (fun dv : date * R => (month (fst dv) =? k)%Z) l)))).
    + rewrite Rsum_map_plus, IH by (intros dv H; apply Hin; now right).
      rewrite Rsum_one_key; [reflexivity | assumption |].
      apply (Hin (d, v)). now left.
    + intros k. cbn [filter fst]. destruct (month d =? k)%Z; cbn; unfold Rsum; cbn; lra.
Qed.

Lemma numbers_cells_of_R l : numbers (cells_of_R l) = l.
Proof. unfold cells_of_R. induction l as [|v l IH]; cbn; [reflexivity | now rewrite IH]. Qed.

Lemma numbers_map_Some {A} (f : A -> R) l :
  numbers (map (fun k => Some (f k)) l) = map f l.
Proof. induction l as [|k l IH]; cbn [map numbers]; [reflexivity | now rewrite IH]. Qed.

Lemma map_snd_combine {A B} (l : list A) (l' : list B) :
  List.length l' = List.length l -> map snd (combine l l') = l'.
Proof.
  revert l'. induction l as [|a l IH]; intros [|b l'] H; try discriminate; [reflexivity|].
  cbn. f_equal. apply IH. now inversion H.
Qed.

(** X10: on either path, the total that the precipitation panel prints,
    the sum of the monthly actual mapping, is the sum of all the values of
    the returned precipitation table. *)
Theorem total_precipitation_is_the_sum_of_the_table y fs st b st' :
  load_data y fs st = (Ok b, st') ->
  exists col,
    getitem (precip_data b) "precip" = Ok col /\
    series_sum (monthly_precip_actual b) = Rsum (numbers col).
Proof.
  intros H. apply precipitation_entries in H.
  destruct H as (idx & vals & Hp & Hlen & Hact & _).
  exists (cells_of_R vals). rewrite Hp, Hact. split; [apply getitem_single|].
  unfold series_sum, nansum. rewrite !map_map. cbn [snd numbers].
  rewrite numbers_map_Some, numbers_cells_of_R.
  rewrite (map_ext _ (fun m => Rsum (map snd (filter
             (fun dv : date * R => (month (fst dv) =? m)%Z) (combine idx vals)))))
    by (intros m; now rewrite month_cells_numbers).
  rewrite Rsum_by_month.
  - now rewrite map_snd_combine.
  - apply (increasing_NoDup Z.ltb Z.ltb_irrefl).
    + intros a c d H1 H2. apply Z.ltb_lt in H1, H2. apply Z.ltb_lt. lia.
    + apply sorted_unique_increasing.
  - intros [d v] Hin. apply in_combine_l in Hin. cbn [fst].
    apply (sorted_unique_In Z.ltb Zltb_total), in_map_iff. now exists d.
Qed.

Lemma total_precipitation_is_the_sum_of_the_table_witness :
  exists b st' col,
    load_data 2023 one_day_files rng0 = (Ok b, st') /\
    getitem (precip_data b) "precip" = Ok col /\
    series_sum (monthly_precip_actual b) = Rsum (numbers col).
Proof.
  destruct (total_precipitation_is_the_sum_of_the_table 2023 one_day_files rng0
              (loaded_bundle (pivoted (rows_of (temperatures one_day_files 2023)))
                 (set_index "precip" (rows_of (precipitation one_day_files 2023)))
                 (set_index "humidity" (rows_of (humidity one_day_files 2023))))
              rng0) as [col Hcol]; [vm_compute; reflexivity|].
  eexists. eexists. exists col. split; [vm_compute; reflexivity | exact Hcol].
Defined.

End YearTotal.

(** * Further properties of the normal lines *)

Section LinesAndAnchors.

Open Scope R_scope.

(** The two lines in closed form. *)
Lemma normal_lines_anchored y b :
  year_supported y = true ->
  twelve_months (monthly_tmax_normal b) = true ->
  twelve_months (monthly_tmin_normal b) = true ->
  normal_lines y b
  = Ok (map (fun d => Some (anchored_line (monthly_value (monthly_tmax_normal b)) d))
            (year_days y),
        map (fun d => Some (anchored_line (monthly_value (monthly_tmin_normal b)) d))
            (year_days y)).
Proof.
  intros Hy Hmax Hmin. unfold normal_lines, twelve_months in *.
  rewrite (date_range_MS_supported y Hy), (date_range_D_supported y Hy).
  cbn [rbind].
  rewrite (comprehension_normals y _ _ Hmax), (comprehension_normals y _ _ Hmin).
  cbn [rbind]. unfold np_interp.
  rewrite !length_map, zrange_length. cbn [Nat.eqb negb rbind].
  rewrite !map_map. do 2 f_equal; apply map_ext_in; intros d Hd;
    apply (interp1_month_starts y _ d Hd).
Qed.

Lemma first_day_of_month y m :
  (1 <= m <= 12)%Z ->
  hd_error (filter (fun d => (month d =? m)%Z) (year_days y)) = Some (mkdate y m 1).
Proof.
  intros Hm.
  assert (H : (m = 1 \/ m = 2 \/ m = 3 \/ m = 4 \/ m = 5 \/ m = 6 \/ m = 7 \/
               m = 8 \/ m = 9 \/ m = 10 \/ m = 11 \/ m = 12)%Z) by lia.
  unfold year_days, month_days.
  change (zrange 1 12) with [1; 2; 3; 4; 5; 6; 7; 8; 9; 10; 11; 12]%Z.
  cbn [flat_map].
  repeat (destruct H as [H|H]); subst m; cbn [days_in_month];
    destruct (is_leap y); vm_compute; reflexivity.
Qed.

Lemma first_of_month_map (f : date -> cell) days m :
  first_of_month (map f days) days m
  = option_map f (hd_error (filter (fun d => (month d =? m)%Z) days)).
Proof.
  unfold first_of_month. induction days as [|d days IH]; [reflexivity|].
  cbn [map combine filter fst]. destruct (month d =? m)%Z; [reflexivity | exact IH].
Qed.

Lemma anchored_line_first_day n y m :
  anchored_line n (mkdate y m 1) = n m \/ (12 <= m)%Z.
Proof.
  unfold anchored_line. cbn [year month day].
  destruct (Z.ltb_spec m 12); [left | right; assumption].
  change (1 - 1)%Z with 0%Z. unfold Rdiv. ring.
Qed.

(** X11: for a year pandas can hold and normals that hold a number for each
    month, the first value of either line among the days of a month is the
    normal of that month: the annotations of lines 172-180, set at October
    15th and March 15th, stand at the height of the October normal high and
    of the March normal low. *)
Theorem annotations_stand_at_the_monthly_normal y b m :
  year_supported y = true ->
  twelve_months (monthly_tmax_normal b) = true ->
  twelve_months (monthly_tmin_normal b) = true ->
  (1 <= m <= 12)%Z ->
  exists high low,
    normal_lines y b = Ok (high, low) /\
    first_of_month high (year_days y) m
      = Some (Some (monthly_value (monthly_tmax_normal b) m)) /\
    first_of_month low (year_days y) m
      = Some (Some (monthly_value (monthly_tmin_normal b) m)).
Proof.
  intros Hy Hmax Hmin Hm. eexists. eexists.
  split; [exact (normal_lines_anchored y b Hy Hmax Hmin)|].
  rewrite !first_of_month_map, (first_day_of_month y m Hm). cbn [option_map].
  split; do 2 f_equal.
  - destruct (anchored_line_first_day (monthly_value (monthly_tmax_normal b)) y m)
      as [E|E]; [exact E|].
    assert (m = 12%Z) by lia. subst. reflexivity.
  - destruct (anchored_line_first_day (monthly_value (monthly_tmin_normal b)) y m)
      as [E|E]; [exact E|].
    assert (m = 12%Z) by lia. subst. reflexivity.
Qed.

Lemma annotations_stand_at_the_monthly_normal_witness :
  exists high low,
    normal_lines 2023 ramp_bundle = Ok (high, low) /\
    first_of_month high (year_days 2023) 10
      = Some (Some (monthly_value (monthly_tmax_normal ramp_bundle) 10)) /\
    first_of_month low (year_days 2023) 10
      = Some (Some (monthly_value (monthly_tmin_normal ramp_bundle) 10)).
Proof.
  apply (annotations_stand_at_the_monthly_normal 2023 ramp_bundle 10);
    try reflexivity. lia.
Defined.

Lemma between_two_values a b t :
  0 <= t <= 1 -> Rmin a b <= a + (b - a) * t <= Rmax a b.
Proof.
  intros Ht. unfold Rmin, Rmax. destruct (Rle_dec a b); nra.
Qed.

Lemma fraction_of_month p q : 0 <= p <= q -> 0 < q -> 0 <= p / q <= 1.
Proof.
  intros Hp Hq. pose proof (Rinv_0_lt_compat q Hq) as Hi.
  assert (Hqi : q * / q = 1) by (apply Rinv_r; lra).
  unfold Rdiv. split; nra.
Qed.

Lemma anchored_line_between n d :
  is_calendar_date d = true ->
  Rmin (n (month d)) (n (following_month (month d)))
  <= anchored_line n d
  <= Rmax (n (month d)) (n (following_month (month d))).
Proof.
  intros Hc. unfold is_calendar_date in Hc.
  repeat (apply andb_prop in Hc as [Hc ?]).
  unfold anchored_line, following_month.
  destruct (Z.ltb_spec (month d) 12) as [Hlt|Hge].
  - assert (Hp : 0 <= IZR (day d - 1) <= IZR (days_in_month (year d) (month d)))
      by (split; apply IZR_le; lia).
    assert (Hq : 0 < IZR (days_in_month (year d) (month d)))
      by (apply IZR_lt; lia).
    pose proof (fraction_of_month _ _ Hp Hq) as Ht.
    destruct (between_two_values (n (month d)) (n (month d + 1)%Z) _ Ht) as [Hb1 Hb2].
    split.
    + eapply Rle_trans; [exact Hb1|]. right. unfold Rdiv. ring.
    + eapply Rle_trans; [|exact Hb2]. right. unfold Rdiv. ring.
  - assert (E12 : month d = 12%Z) by lia. rewrite E12.
    unfold Rmin, Rmax. destruct (Rle_dec (n 12%Z) (n 12%Z)); lra.
Qed.

(** X12: for a year pandas can hold and normals that hold a number for each
    month, either line has one number per day of the year and never leaves
    the interval between the normal of the month of that day and the normal
    of the following month (of December itself in December): the
    interpolation never overshoots the monthly normals. *)
Theorem normal_lines_stay_between_the_normals y b :
  year_supported y = true ->
  twelve_months (monthly_tmax_normal b) = true ->
  twelve_months (monthly_tmin_normal b) = true ->
  exists high low,
    normal_lines y b = Ok (high, low) /\
    List.length high = List.length (year_days y) /\
    List.length low = List.length (year_days y) /\
    Forall (fun dv =>
              exists v, snd dv = Some v /\
                Rmin (monthly_value (monthly_tmax_normal b) (month (fst dv)))
                     (monthly_value (monthly_tmax_normal b)
                                    (following_month (month (fst dv))))
                <= v
                <= Rmax (monthly_value (monthly_tmax_normal b) (month (fst dv)))
                        (monthly_value (monthly_tmax_normal b)
                                       (following_month (month (fst dv)))))
           (combine (year_days y) high) /\
    Forall (fun dv =>
              exists v, snd dv = Some v /\
                Rmin (monthly_value (monthly_tmin_normal b) (month (fst dv)))
                     (monthly_value (monthly_tmin_normal b)
                                    (following_month (month (fst dv))))
                <= v
                <= Rmax (monthly_value (monthly_tmin_normal b) (month (fst dv)))
                        (monthly_value (monthly_tmin_normal b)
                                       (following_month (month (fst dv)))))
           (combine (year_days y) low).
Proof.
  intros Hy Hmax Hmin. eexists. eexists.
  split; [exact (normal_lines_anchored y b Hy Hmax Hmin)|].
  split; [apply length_map|]. split; [apply length_map|].
  assert (Hall : forall n,
    Forall (fun dv : date * cell =>
              exists v, snd dv = Some v /\
                Rmin (n (month (fst dv))) (n (following_month (month (fst dv))))
                <= v
                <= Rmax (n (month (fst dv))) (n (following_month (month (fst dv)))))
           (combine (year_days y) (map (fun d => Some (anchored_line n d)) (year_days y)))).
  { intros n. apply Forall_forall. intros [d c] Hin.
    pose proof (in_combine_l _ _ _ _ Hin) as Hd.
    apply year_days_In in Hd as [_ Hc].
    assert (Ec : c = Some (anchored_line n d)).
    { clear Hc. induction (year_days y) as [|d' l IH]; [contradiction|].
      cbn [map combine] in Hin. destruct Hin as [Hin|Hin];
        [now inversion Hin | now apply IH]. }
    subst c. cbn [fst snd]. eexists. split; [reflexivity|].
    now apply anchored_line_between. }
  split; apply Hall.
Qed.

Lemma normal_lines_stay_between_the_normals_witness :
  exists high low,
    normal_lines 2023 ramp_bundle = Ok (high, low) /\
    List.length high = List.length (year_days 2023) /\
    List.length low = List.length (year_days 2023) /\
    Forall (fun dv =>
              exists v, snd dv = Some v /\
                Rmin (monthly_value (monthly_tmax_normal ramp_bundle) (month (fst dv)))
                     (monthly_value (monthly_tmax_normal ramp_bundle)
                                    (following_month (month (fst dv))))
                <= v
                <= Rmax (monthly_value (monthly_tmax_normal ramp_bundle) (month (fst dv)))
                        (monthly_value (monthly_tmax_normal ramp_bundle)
                                       (following_month (month (fst dv)))))
           (combine (year_days 2023) high) /\
    Forall (fun dv =>
              exists v, snd dv = Some v /\
                Rmin (monthly_value (monthly_tmin_normal ramp_bundle) (month (fst dv)))
                     (monthly_value (monthly_tmin_normal ramp_bundle)
                                    (following_month (month (fst dv))))
                <= v
                <= Rmax (monthly_value (monthly_tmin_normal ramp_bundle) (month (fst dv)))
                        (monthly_value (monthly_tmin_normal ramp_bundle)
                                       (following_month (month (fst dv)))))
           (combine (year_days 2023) low).
Proof.
  apply (normal_lines_stay_between_the_normals 2023 ramp_bundle); reflexivity.
Defined.

End LinesAndAnchors.

(** * Further properties of the annotations *)

Section Extremes.

Variable beyond within : R -> R -> Prop.
Variable beyond_dec : forall a b, {beyond a b} + {~ beyond a b}.
Hypothesis not_beyond : forall a b, ~ beyond a b -> within a b.
Hypothesis beyond_within : forall a b, beyond a b -> within b a.
Hypothesis within_refl : forall a, within a a.
Hypothesis within_trans : forall a b c, within a b -> within b c -> within a c.









End Extremes.

Section ExtremeDays.

Open Scope R_scope.

Lemma load_primary_pivot y fs st b st' :
  load_primary y fs st = (Ok b, st') ->
  exists trows,
    temp_pivot b = pivoted trows /\
    has_duplicates temp_key_eqb (map temp_key trows) = false.
Proof.
  unfold load_primary. intros H.
  step H as u1 Eex1. pure_step H as trows Eread1. pure_step H as tdates Edt1.
  pure_step H as temp Epivot.
  step H as u2 Eex2. pure_step H as prows Eread2. pure_step H as pdates Edt2.
  cbv zeta in H. step H as hum Ehum.
  pure_step H as tmaxn Emax. pure_step H as tminn Emin.
  pure_step H as pmean Emean. pure_step H as pact Eact.
  apply ret_Ok in H as [-> ->].
  apply pivot_Ok in Epivot as [-> Hdup]. now exists trows.
Qed.

Lemma getitem_Ok_In df c col : getitem df c = Ok col -> In c (columns df).
Proof.
  unfold getitem. destruct (position_of c (columns df)) as [i|] eqn:E; [|discriminate].
  intros _. apply position_of_Some in E. now apply nth_error_In in E.
Qed.






End ExtremeDays.

(** * When the loader falls back *)

Section FallbackCondition.

Lemma pivoted_column_kind rows k :
  In k (columns (pivoted rows)) ->
  existsb (fun r => String.eqb (t_type r) k) rows = true.
Proof.
  cbn [pivoted columns]. intros H.
  apply (sorted_unique_In String.ltb String_ltb_total), in_map_iff in H as (r & Hk & Hr).
  apply existsb_exists. exists r. split; [assumption|]. now apply String.eqb_eq.
Qed.

Lemma load_primary_loads y fs st b st' :
  load_primary y fs st = (Ok b, st') ->
  temperature_loads (temperatures fs y) = true /\
  values_load (precipitation fs y) = true.
Proof.
  unfold load_primary. intros H.
  step H as u1 Eex1. pure_step H as trows Eread1. pure_step H as tdates Edt1.
  pure_step H as temp Epivot.
  step H as u2 Eex2. pure_step H as prows Eread2. pure_step H as pdates Edt2.
  cbv zeta in H. step H as hum Ehum.
  pure_step H as tmaxn Emax. pure_step H as tminn Emin.
  pure_step H as pmean Emean. pure_step H as pact Eact.
  apply read_csv_Ok in Eread1, Eread2. apply pivot_Ok in Epivot as [-> Hdup].
  unfold groupby_month in Emax, Emin.
  apply rbind_Ok in Emax as (cmax & Hmax & _).
  apply rbind_Ok in Emin as (cmin & Hmin & _).
  apply getitem_Ok_In, pivoted_column_kind in Hmax, Hmin.
  unfold temperature_loads, values_load. rewrite Eread1, Eread2.
  rewrite (to_datetime_Ok _ _ Edt1), (to_datetime_Ok _ _ Edt2), Hdup, Hmax, Hmin.
  split; reflexivity.
Qed.

(** X14: [load_data] keeps the files exactly when the temperature file is
    there, parses, repeats no date and kind and holds both TMAX and TMIN
    rows, and the precipitation file is there and parses; in every other
    case, whatever the humidity file, it returns what the fallback returns
    from the state of the generator in which the primary load stopped. *)
Theorem load_data_falls_back_exactly_when y fs st :
  (temperature_loads (temperatures fs y) && values_load (precipitation fs y) = true ->
   exists hum st',
     load_humidity fs y (pivoted (rows_of (temperatures fs y))) st = (Ok hum, st') /\
     load_data y fs st
     = (Ok (loaded_bundle (pivoted (rows_of (temperatures fs y)))
                          (set_index "precip" (rows_of (precipitation fs y))) hum),
        st')) /\
  (temperature_loads (temperatures fs y) && values_load (precipitation fs y) = false ->
   exists e st1,
     load_primary y fs st = (Raise e, st1) /\
     load_data y fs st = load_fallback y st1).
Proof.
  split.
  - intros H. apply andb_prop in H as [Ht Hp].
    destruct (load_humidity_returns fs y (pivoted (rows_of (temperatures fs y))) st)
      as (hum & st' & Eh).
    exists hum, st'. split; [exact Eh|].
    apply load_data_primary. now apply load_primary_run.
  - intros H. destruct (load_primary y fs st) as [[b|e] st1] eqn:E.
    + apply load_primary_loads in E as [Ht Hp]. now rewrite Ht, Hp in H.
    + exists e, st1. split; [reflexivity|]. exact (load_data_fallback _ _ _ _ _ E).
Qed.

(** X15: when the temperature and the precipitation file load, neither the
    humidity file nor the state of the generator has any bearing on the
    temperature table, the precipitation table and the four monthly mappings
    that [load_data] returns: a humidity file that is missing or broken
    never costs the data of the two other files. *)
Theorem humidity_file_touches_the_humidity_table_only y fs1 fs2 st1 st2 :
  temperatures fs1 y = temperatures fs2 y ->
  precipitation fs1 y = precipitation fs2 y ->
  temperature_loads (temperatures fs1 y) = true ->
  values_load (precipitation fs1 y) = true ->
  exists b1 b2 s1 s2,
    load_data y fs1 st1 = (Ok b1, s1) /\
    load_data y fs2 st2 = (Ok b2, s2) /\
    temp_pivot b1 = temp_pivot b2 /\
    precip_data b1 = precip_data b2 /\
    monthly_tmax_normal b1 = monthly_tmax_normal b2 /\
    monthly_tmin_normal b1 = monthly_tmin_normal b2 /\
    monthly_precip_normal b1 = monthly_precip_normal b2 /\
    monthly_precip_actual b1 = monthly_precip_actual b2.
Proof.
  intros Et Ep Ht Hp.
  destruct (load_humidity_returns fs1 y (pivoted (rows_of (temperatures fs1 y))) st1)
    as (h1 & s1 & E1).
  destruct (load_humidity_returns fs2 y (pivoted (rows_of (temperatures fs2 y))) st2)
    as (h2 & s2 & E2).
  pose proof (load_primary_run y fs1 st1 h1 s1 Ht Hp E1) as R1.
  assert (Ht2 : temperature_loads (temperatures fs2 y) = true) by now rewrite <- Et.
  assert (Hp2 : values_load (precipitation fs2 y) = true) by now rewrite <- Ep.
  pose proof (load_primary_run y fs2 st2 h2 s2 Ht2 Hp2 E2) as R2.
  apply load_data_primary in R1, R2.
  eexists. eexists. exists s1, s2. split; [exact R1|]. split; [exact R2|].
  cbn [loaded_bundle temp_pivot precip_data monthly_tmax_normal monthly_tmin_normal
       monthly_precip_normal monthly_precip_actual].
  rewrite Et, Ep. repeat split.
Qed.

Lemma humidity_file_touches_the_humidity_table_only_witness :
  exists b1 b2 s1 s2,
    load_data 2023 one_day_files rng0 = (Ok b1, s1) /\
    load_data 2023 no_humidity_files rng1 = (Ok b2, s2) /\
    temp_pivot b1 = temp_pivot b2 /\
    precip_data b1 = precip_data b2 /\
    monthly_tmax_normal b1 = monthly_tmax_normal b2 /\
    monthly_tmin_normal b1 = monthly_tmin_normal b2 /\
    monthly_precip_normal b1 = monthly_precip_normal b2 /\
    monthly_precip_actual b1 = monthly_precip_actual b2.
Proof.
  apply (humidity_file_touches_the_humidity_table_only
           2023 one_day_files no_humidity_files rng0 rng1); reflexivity.
Defined.

Lemma load_data_falls_back_exactly_when_witness :
  exists hum st',
    load_humidity one_day_files 2023
      (pivoted (rows_of (temperatures one_day_files 2023))) rng0 = (Ok hum, st') /\
    load_data 2023 one_day_files rng0
    = (Ok (loaded_bundle (pivoted (rows_of (temperatures one_day_files 2023)))
                         (set_index "precip" (rows_of (precipitation one_day_files 2023)))
                         hum),
       st').
Proof.
  apply (proj1 (load_data_falls_back_exactly_when 2023 one_day_files rng0)).
  reflexivity.
Defined.

End FallbackCondition.

(** * Years of five digits *)

Section FiveDigits.

Lemma Timestamp_long_year y m d : 9999 < y -> Timestamp y m d = Raise DateParseError.
Proof.
  intros H. unfold Timestamp.
  assert (E : (9999 <? y) = true) by (apply Z.ltb_lt; lia).
  rewrite E, orb_true_r. reflexivity.
Qed.

Lemma render_long_year be y fs st :
  9999 < y -> exists e st', render be y fs st = (Raise e, st').
Proof.
  intros Hy. unfold render, bind, lift.
  destruct (load_data y fs st) as [[b|e] st1]; [|eauto].
  destruct (begin_figure be b); [|eauto].
  unfold normal_lines, date_range_MS.
  rewrite (Timestamp_long_year y 1 1 Hy). cbn [rbind]. eauto.
Qed.

(** X16: for a year of five digits the renderer returns [False], whatever
    the files and the drawing calls are, and the program started with that
    year exits with status 1: no [datetime] holds such a year, so the month
    starts of line 141 cannot be built, nor the dates of the loader's
    fallback, and the except clause of the renderer absorbs the exception. *)
Theorem renderer_refuses_five_digit_years be y fs st :
  10000 <= y <= 99999 ->
  (exists st', create_tufte_visualization be y fs st = (Ok false, st')) /\
  (forall argv, year_argument argv = Ok y ->
                exit_code (fst (main be fs argv st)) = 1).
Proof.
  intros Hy.
  assert (Hc : exists st', create_tufte_visualization be y fs st = (Ok false, st')).
  { destruct (render_long_year be y fs st) as (e & st' & E); [lia|].
    unfold create_tufte_visualization, try_except, ret. rewrite E. eauto. }
  split; [exact Hc|].
  intros argv Ha. destruct Hc as [st' Hc].
  unfold main, main_try. rewrite Ha, Hc. reflexivity.
Qed.

Lemma renderer_refuses_five_digit_years_witness :
  10000 <= 12023 <= 99999 /\
  (exists st', create_tufte_visualization good_backend 12023 fixed_day_files rng0
               = (Ok false, st')) /\
  (forall argv, year_argument argv = Ok 12023 ->
                exit_code (fst (main good_backend fixed_day_files argv rng0)) = 1).
Proof.
  split; [lia|].
  apply (renderer_refuses_five_digit_years good_backend 12023 fixed_day_files rng0).
  lia.
Defined.

End FiveDigits.

(** * The monthly normals of the temperature *)

Section TemperatureNormals.

Lemma rows_of_month_column df i m :
  map (fun row => nth i row None) (rows_of_month df m)
  = month_cells (index df) (map (fun row => nth i row None) (values df)) m.
Proof.
  unfold rows_of_month, month_cells.
  generalize (values df). induction (index df) as [|d idx IH]; intros [|r rows];
    cbn [map combine filter]; try reflexivity.
  cbn [fst]. destruct (month d =? m); cbn [map snd]; now rewrite IH.
Qed.

Lemma nanmean_mean_of l : nanmean l = mean_of (numbers l).
Proof. unfold nanmean, mean_of. now destruct (numbers l). Qed.

(** A monthly mean of a column of a table, in terms of the rows of the month. *)
Lemma monthly_mean_of_column df c s m :
  groupby_month nanmean df c = Ok s ->
  series_find s m
  = if has_month df m then Some (mean_of (daily_values df c m)) else None.
Proof.
  unfold groupby_month, getitem, has_month, daily_values. intros H.
  destruct (position_of c (columns df)) as [i|]; [|discriminate].
  cbn [rbind] in H. inversion H as [Hs]. clear H.
  rewrite (series_find_keys
             (fun k => nanmean (month_cells (index df)
                                  (map (fun row => nth i row None) (values df)) k))).
  rewrite month_keys, rows_of_month_column, nanmean_mean_of. reflexivity.
Qed.

(** X17: on either path, for every month that occurs in the returned
    temperature table, the monthly normal high is the mean of the TMAX
    values of the rows of that month that hold one, NaN when none does, and
    likewise the normal low for TMIN; a month that does not occur has no
    entry. *)
Theorem temperature_normals_are_monthly_means y fs st b st' m :
  load_data y fs st = (Ok b, st') ->
  series_find (monthly_tmax_normal b) m
  = (if has_month (temp_pivot b) m
     then Some (mean_of (daily_values (temp_pivot b) "TMAX" m)) else None) /\
  series_find (monthly_tmin_normal b) m
  = (if has_month (temp_pivot b) m
     then Some (mean_of (daily_values (temp_pivot b) "TMIN" m)) else None).
Proof.
  intros H. apply load_data_coherent in H. destruct H as (Hmax & Hmin & _).
  split; now apply monthly_mean_of_column.
Qed.

Lemma temperature_normals_are_monthly_means_witness :
  exists b st',
    load_data 2023 one_day_files rng0 = (Ok b, st') /\
    series_find (monthly_tmax_normal b) 1
    = (if has_month (temp_pivot b) 1
       then Some (mean_of (daily_values (temp_pivot b) "TMAX" 1)) else None) /\
    series_find (monthly_tmin_normal b) 1
    = (if has_month (temp_pivot b) 1
       then Some (mean_of (daily_values (temp_pivot b) "TMIN" 1)) else None).
Proof.
  eexists. eexists. split; [vm_compute; reflexivity|].
  eapply (temperature_normals_are_monthly_means 2023 one_day_files rng0).
  vm_compute. reflexivity.
Defined.

End TemperatureNormals.

(** * The shape of the returned temperature table *)

Section TemperatureTable.

Lemma year_days_pairs y :
  year_days y = map (fun mk => mkdate y (fst mk) (snd mk)) (month_day_pairs (is_leap y)).
Proof.
  unfold year_days, month_days, month_day_pairs.
  change (zrange 1 12) with [1; 2; 3; 4; 5; 6; 7; 8; 9; 10; 11; 12].
  cbn [flat_map days_in_month]. destruct (is_leap y); vm_compute; reflexivity.
Qed.

Lemma increasing_map {A B} (ltb : B -> B -> bool) (ltb' : A -> A -> bool) (f : A -> B) l :
  (forall a b, ltb (f a) (f b) = ltb' a b) ->
  increasing ltb (map f l) = increasing ltb' l.
Proof.
  intros H. induction l as [|a l IH]; [reflexivity|].
  destruct l as [|b l]; [reflexivity|].
  cbn [map increasing] in *. now rewrite H, IH.
Qed.

Lemma year_days_increasing y : increasing date_ltb (year_days y) = true.
Proof.
  rewrite year_days_pairs.
  rewrite (increasing_map date_ltb pair_ltb).
  - destruct (is_leap y); vm_compute; reflexivity.
  - intros a b. unfold date_ltb, pair_ltb. cbn [year month day].
    now rewrite Z.ltb_irrefl, Z.eqb_refl.
Qed.

Lemma synthetic_rows_width z l : forall p,
  Forall (fun row : list cell => List.length row = 2%nat) (synthetic_rows z p l).
Proof.
  induction l as [|d l IH]; intros p; cbn [synthetic_rows]; constructor; auto.
Qed.

(** X18: for every bundle that [load_data] returns, on either path, the
    dates of the temperature table are strictly increasing, hence distinct,
    TMAX and TMIN are among its columns, and the table is rectangular. *)
Theorem temperature_table_is_well_formed y fs st b st' :
  load_data y fs st = (Ok b, st') ->
  increasing date_ltb (index (temp_pivot b)) = true /\
  NoDup (index (temp_pivot b)) /\
  In "TMAX"%string (columns (temp_pivot b)) /\
  In "TMIN"%string (columns (temp_pivot b)) /\
  List.length (values (temp_pivot b)) = List.length (index (temp_pivot b)) /\
  Forall (fun row => List.length row = List.length (columns (temp_pivot b)))
         (values (temp_pivot b)).
Proof.
  unfold load_data, try_except.
  destruct (load_primary y fs st) as [[b1|e] st1] eqn:E; intros H.
  - inversion H; subst b1 st1. clear H.
    pose proof (load_primary_Ok _ _ _ _ _ E) as ((Hmax & Hmin & _) & _).
    destruct (load_primary_pivot _ _ _ _ _ E) as (trows & Ht & _).
    unfold groupby_month in Hmax, Hmin.
    apply rbind_Ok in Hmax as (cmax & Hmax & _).
    apply rbind_Ok in Hmin as (cmin & Hmin & _).
    apply getitem_Ok_In in Hmax, Hmin. rewrite Ht in *.
    cbn [pivoted index columns values] in *.
    split; [apply sorted_unique_increasing|].
    split; [apply (increasing_NoDup date_ltb date_ltb_irrefl date_ltb_trans),
              sorted_unique_increasing|].
    split; [assumption|]. split; [assumption|].
    split; [now rewrite length_map|].
    apply Forall_forall. intros row Hrow.
    apply in_map_iff in Hrow as [d [<- _]]. now rewrite length_map.
  - pose proof (load_fallback_Ok_year _ _ _ _ H) as Hy.
    rewrite (load_fallback_bundle y st1 Hy) in H. inversion H; subst b. clear H.
    cbn [synthetic_bundle loaded_bundle temp_pivot index columns values].
    split; [apply year_days_increasing|].
    split; [apply year_days_NoDup|].
    split; [now left|]. split; [right; now left|].
    split; [apply synthetic_rows_length | apply synthetic_rows_width].
Qed.

Lemma temperature_table_is_well_formed_witness :
  exists b st',
    load_data 2023 one_day_files rng0 = (Ok b, st') /\
    increasing date_ltb (index (temp_pivot b)) = true /\
    NoDup (index (temp_pivot b)) /\
    In "TMAX"%string (columns (temp_pivot b)) /\
    In "TMIN"%string (columns (temp_pivot b)) /\
    List.length (values (temp_pivot b)) = List.length (index (temp_pivot b)) /\
    Forall (fun row => List.length row = List.length (columns (temp_pivot b)))
           (values (temp_pivot b)).
Proof.
  eexists. eexists. split; [vm_compute; reflexivity|].
  eapply (temperature_table_is_well_formed 2023 one_day_files rng0).
  vm_compute. reflexivity.
Defined.

End TemperatureTable.

(** * When the renderer succeeds on files *)

Section RendererOnFiles.





End RendererOnFiles.
